(** * Solana narrative tracker: signal digest, analyzer and orchestrator

    A shallow embedding of [src/analyzer.py], [src/main.py] and the
    fetchers [get_solana_tvl_history], [get_solana_ecosystem_tokens],
    [get_sol_price_data] and [get_defi_categories] of [src/collectors],
    with the properties of the natural-language specification stated and
    proved over it.

    Python values are dynamically typed, so the embedding works over one
    type [value] of JSON-like values, and every operation that can raise
    in Python returns a [result].  Dictionaries are finite maps with
    string keys.  Strings are kept as their UTF-8 bytes; slicing and
    iteration go by code point, as in Python. *)

From Stdlib Require Import ZArith String Ascii List Bool Lia.
From Stdlib Require Import Floats.SpecFloat.
From stdpp Require Import gmap strings list fin_maps pretty.

#[local] Set Warnings "-register-all".
#[local] Open Scope string_scope.
#[local] Open Scope Z_scope.

(** ** Exceptions and the result monad *)

Inductive exn : Type :=
| KeyError
| TypeError
| AttributeError
| ValueError
| ZeroDivisionError
| OverflowError
| IndexError
| RequestError.

Inductive result (A : Type) : Type :=
| Ok (a : A)
| Raise (e : exn).

Arguments Ok {A} a.
Arguments Raise {A} e.

#[global] Instance result_ret : MRet result := @Ok.
#[global] Instance result_bind : MBind result :=
  λ A B f m, match m with Ok a => f a | Raise e => Raise e end.
#[global] Instance result_fmap : FMap result :=
  λ A B f m, match m with Ok a => Ok (f a) | Raise e => Raise e end.

Definition is_ok {A} (r : result A) : bool :=
  match r with Ok _ => true | Raise _ => false end.

(** The body of a [for] loop run over a list: the first element whose
    body raises aborts the loop. *)
Fixpoint for_each {A B} (f : A → result B) (l : list A) : result (list B) :=
  match l with
  | [] => Ok []
  | x :: l' => y ← f x; ys ← for_each f l'; Ok (y :: ys)
  end.

(** ** Python values *)

Inductive value : Type :=
| VNone
| VBool (b : bool)
| VInt (z : Z)
| VFloat (f : spec_float)
| VStr (s : string)
| VList (l : list value)
| VDict (d : gmap string value).

Abbreviation dict := (gmap string value).

(** Binary64 parameters of Python's [float]. *)
Definition prec : Z := 53.
Definition emax : Z := 1024.

Definition float_is_zero (f : spec_float) : bool :=
  match f with S754_zero _ => true | _ => false end.

(** [bool(v)]: the truth value used by [if v], [not v] and [v or d]. *)
Definition truthy (v : value) : bool :=
  match v with
  | VNone => false
  | VBool b => b
  | VInt z => negb (z =? 0)
  | VFloat f => negb (float_is_zero f)
  | VStr s => negb (String.eqb s "")
  | VList l => match l with [] => false | _ => true end
  | VDict d => negb (bool_decide (d = ∅))
  end.

(** [a or b]. *)
Definition py_or (a b : value) : value := if truthy a then a else b.

(** ** Strings *)

Module Str.

(** A UTF-8 continuation byte, [10xxxxxx]. *)
Definition is_continuation (a : ascii) : bool :=
  let n := nat_of_ascii a in (128 <=? n)%nat && (n <? 192)%nat.

Definition starts_inside_char (s : string) : bool :=
  match s with
  | String c _ => is_continuation c
  | EmptyString => false
  end.

(** The code points of a string, each as a one-character string: a
    byte is glued to the group that follows it when that group starts
    with a continuation byte. *)
Fixpoint chars (s : string) : list string :=
  match s with
  | EmptyString => []
  | String c s' =>
      match starts_inside_char s', chars s' with
      | true, h :: t => String c h :: t
      | _, r => String c EmptyString :: r
      end
  end.

Definition concat (l : list string) : string := String.concat "" l.

(** [s[:n]] *)
Definition slice_to (n : nat) (s : string) : string := concat (take n (chars s)).

(** [sep.join(l)] *)
Definition join (sep : string) (l : list string) : string := String.concat sep l.

(** [sub in s] *)
Fixpoint contains (sub s : string) : bool :=
  String.prefix sub s
  || match s with
     | EmptyString => false
     | String _ s' => contains sub s'
     end.

(** [s.split(sep)] for a non-empty [sep]: the pieces between the
    non-overlapping occurrences of [sep], found left to right.  [skip]
    counts the bytes of a separator still to be passed over and [cur]
    holds the current piece, reversed. *)
Fixpoint split_aux (sep : string) (skip : nat) (cur : list ascii) (s : string)
  : list string :=
  match s with
  | EmptyString => [string_of_list_ascii (rev cur)]
  | String c s' =>
      match skip with
      | S k => split_aux sep k cur s'
      | O =>
          if String.prefix sep s
          then string_of_list_ascii (rev cur)
                 :: split_aux sep (String.length sep - 1) [] s'
          else split_aux sep 0 (c :: cur) s'
      end
  end.

Definition split (sep s : string) : list string := split_aux sep 0 [] s.

End Str.

(** ** Numbers

    Python's [float] is IEEE binary64, taken here as [spec_float] with
    the operations of the standard library at precision 53.  An [int] is
    unbounded. *)

Module Num.

Definition of_Z (z : Z) : spec_float := binary_normalize prec emax z 0 false.

(** [float(n)] for an int [n]: nearest double, or [OverflowError]. *)
Definition float_of_int (z : Z) : result spec_float :=
  match of_Z z with
  | S754_infinity _ => Raise OverflowError
  | f => Ok f
  end.

(** The operands of binary arithmetic: [bool] is a subclass of [int]. *)
Inductive number : Type :=
| NInt (z : Z)
| NFloat (f : spec_float).

Definition as_number (v : value) : result number :=
  match v with
  | VInt z => Ok (NInt z)
  | VBool b => Ok (NInt (if b then 1 else 0))
  | VFloat f => Ok (NFloat f)
  | _ => Raise TypeError
  end.

Definition to_float (n : number) : result spec_float :=
  match n with
  | NInt z => float_of_int z
  | NFloat f => Ok f
  end.

Definition of_number (n : number) : value :=
  match n with
  | NInt z => VInt z
  | NFloat f => VFloat f
  end.

(** [a - b]; only numbers can be subtracted. *)
Definition sub (a b : value) : result value :=
  x ← as_number a; y ← as_number b;
  match x, y with
  | NInt p, NInt q => Ok (VInt (p - q))
  | _, _ => f ← to_float x; g ← to_float y; Ok (VFloat (SFsub prec emax f g))
  end.

(** [a / b]: true division, whose result is always a float.  Two
    ints give the correctly rounded quotient; a zero divisor raises. *)
Definition truediv (a b : value) : result spec_float :=
  x ← as_number a; y ← as_number b;
  match x, y with
  | NInt p, NInt q =>
      match p, q with
      | _, Z0 => Raise ZeroDivisionError
      | Z0, _ => Ok (S754_zero (q <? 0))
      | _, _ =>
          let fp := S754_finite (p <? 0) (Z.to_pos (Z.abs p)) 0 in
          let fq := S754_finite (q <? 0) (Z.to_pos (Z.abs q)) 0 in
          match SFdiv prec emax fp fq with
          | S754_infinity _ => Raise OverflowError
          | f => Ok f
          end
      end
  | _, _ =>
      f ← to_float x; g ← to_float y;
      if float_is_zero g then Raise ZeroDivisionError
      else Ok (SFdiv prec emax f g)
  end.

(** [f * n] for a float [f] and an int literal [n] *)
Definition mul_int (f : spec_float) (n : Z) : spec_float :=
  SFmul prec emax f (of_Z n).

(** Nearest integer to [num / den] for [den > 0], ties to even. *)
Definition round_half_even (num den : Z) : Z :=
  let q := num / den in
  match (2 * (num mod den) ?= den) with
  | Lt => q
  | Gt => q + 1
  | Eq => if Z.even q then q else q + 1
  end.

(** [m * 2^e * 10^p] rounded to an integer: the digits of a finite
    double correctly rounded to [p] decimal places. *)
Definition decimal_scaled (m : positive) (e : Z) (p : nat) : Z :=
  let n := Zpos m * 10 ^ Z.of_nat p in
  if 0 <=? e then n * 2 ^ e else round_half_even n (2 ^ (- e)).

(** [round(x, p)] for a float [x] and small [p >= 0]: round the exact
    value to [p] decimals, then take the nearest double. *)
Definition round_float (p : nat) (f : spec_float) : spec_float :=
  match f with
  | S754_finite s m e =>
      match decimal_scaled m e p with
      | Zpos n =>
          SFdiv prec emax (S754_finite s n 0)
            (S754_finite false (Z.to_pos (10 ^ Z.of_nat p)) 0)
      | _ => S754_zero s
      end
  | _ => f
  end.

(** [round(v, p)]: an int is returned as it is. *)
Definition round (p : nat) (v : value) : result value :=
  x ← as_number v;
  match x with
  | NInt z => Ok (VInt z)
  | NFloat f => Ok (VFloat (round_float p f))
  end.

(** *** Fixed-point formatting: the format specs [.Nf], [+.Nf], [,.Nf] *)

Record fspec : Type := { fs_plus : bool; fs_comma : bool; fs_places : nat }.

(** Insert a comma after every third digit of a reversed digit list. *)
Fixpoint group3 (rev_digits : list ascii) : list ascii :=
  match rev_digits with
  | a :: b :: c :: (_ :: _) as rest => a :: b :: c :: ","%char :: group3 rest
  | l => l
  end.

Definition with_commas (digits : string) : string :=
  string_of_list_ascii (rev (group3 (rev (list_ascii_of_string digits)))).

Fixpoint zeros (n : nat) : string :=
  match n with O => "" | S k => String "0" (zeros k) end.

Definition pad_zeros (width : nat) (s : string) : string :=
  zeros (width - String.length s) +:+ s.

(** The digits of the non-negative integer [n], read as [n / 10^p]. *)
Definition fixed_digits (sp : fspec) (n : Z) : string :=
  let scale := 10 ^ Z.of_nat (fs_places sp) in
  let whole := pretty (n / scale) in
  let whole := if fs_comma sp then with_commas whole else whole in
  match fs_places sp with
  | O => whole
  | p => whole +:+ "." +:+ pad_zeros p (pretty (n mod scale))
  end.

Definition sign_of (sp : fspec) (negative : bool) : string :=
  if negative then "-" else if fs_plus sp then "+" else "".

Definition format_float (sp : fspec) (f : spec_float) : string :=
  match f with
  | S754_nan => sign_of sp false +:+ "nan"
  | S754_infinity s => sign_of sp s +:+ "inf"
  | S754_zero s => sign_of sp s +:+ fixed_digits sp 0
  | S754_finite s m e =>
      sign_of sp s +:+ fixed_digits sp (decimal_scaled m e (fs_places sp))
  end.

(** [format(v, spec)] with presentation type [f].  An int is first
    converted to a float. *)
Definition format (sp : fspec) (v : value) : result string :=
  match v with
  | VFloat f => Ok (format_float sp f)
  | VInt z => f ← float_of_int z; Ok (format_float sp f)
  | VBool b => Ok (format_float sp (of_Z (if b then 1 else 0)))
  | VStr _ => Raise ValueError
  | _ => Raise TypeError
  end.

(** [,.0f], [,.2f], [+.1f], [.1f], [.4f] *)
Definition comma_0f : fspec := {| fs_plus := false; fs_comma := true; fs_places := 0 |}.
Definition comma_2f : fspec := {| fs_plus := false; fs_comma := true; fs_places := 2 |}.
Definition plus_1f : fspec := {| fs_plus := true; fs_comma := false; fs_places := 1 |}.
Definition dot_1f : fspec := {| fs_plus := false; fs_comma := false; fs_places := 1 |}.
Definition dot_4f : fspec := {| fs_plus := false; fs_comma := false; fs_places := 4 |}.

End Num.

(** ** The Python runtime

    Library functions that the program calls and does not define.
    [float_repr] is [repr] on floats, which is what [str] and an
    f-string field without a format spec print for them;
    [container_repr] is [repr] on lists and dicts, which raises when the
    [repr] of an item does (an int beyond the digit limit, nesting
    beyond the recursion limit); [json_loads] is [json.loads], [None]
    standing for [JSONDecodeError]; [str_upper] is [str.upper]. *)

Class Runtime : Type := {
  float_repr : spec_float → string;
  container_repr : value → result string;
  json_loads : string → option value;
  str_upper : string → string
}.

Definition newline : string := String "010"%char EmptyString.

Module Py.

(** [v.get(k, dflt)] *)
Definition get (v : value) (k : string) (dflt : value) : result value :=
  match v with
  | VDict d => Ok (default dflt (d !! k))
  | _ => Raise AttributeError
  end.

(** [v[k]] for a string key [k] *)
Definition index (v : value) (k : string) : result value :=
  match v with
  | VDict d => match d !! k with Some x => Ok x | None => Raise KeyError end
  | _ => Raise TypeError
  end.

(** [v[:n]] *)
Definition slice_to (n : nat) (v : value) : result value :=
  match v with
  | VList l => Ok (VList (take n l))
  | VStr s => Ok (VStr (Str.slice_to n s))
  | _ => Raise TypeError
  end.

(** [v[-n:]] *)
Definition slice_last (n : nat) (v : value) : result value :=
  match v with
  | VList l => Ok (VList (drop (length l - n) l))
  | VStr s => let cs := Str.chars s in
              Ok (VStr (Str.concat (drop (length cs - n) cs)))
  | _ => Raise TypeError
  end.

(** The items a [for] loop over [v] visits.  A dict yields its keys. *)
Definition iter (v : value) : result (list value) :=
  match v with
  | VList l => Ok l
  | VStr s => Ok (VStr <$> Str.chars s)
  | VDict d => Ok (VStr <$> (map_to_list d).*1)
  | _ => Raise TypeError
  end.

(** [len(v)] *)
Definition len (v : value) : result nat :=
  match v with
  | VList l => Ok (length l)
  | VStr s => Ok (length (Str.chars s))
  | VDict d => Ok (size d)
  | _ => Raise TypeError
  end.

Definition is_str (k : string) (v : value) : bool :=
  match v with VStr s => String.eqb s k | _ => false end.

(** [k in v] for a string [k] *)
Definition contains (k : string) (v : value) : result bool :=
  match v with
  | VDict d => Ok (bool_decide (is_Some (d !! k)))
  | VList l => Ok (existsb (is_str k) l)
  | VStr s => Ok (Str.contains k s)
  | _ => Raise TypeError
  end.

(** [sys.int_info.default_max_str_digits], which the program leaves
    as it is: [str] of an int with more decimal digits than this raises
    [ValueError]. *)
Definition max_str_digits : Z := 4300.

(** The least absolute value with more digits than the limit. *)
Definition str_digits_bound : Z := Eval vm_compute in 10 ^ max_str_digits.

(** [str(z)] for an int [z] *)
Definition int_str (z : Z) : result string :=
  if str_digits_bound <=? Z.abs z then Raise ValueError else Ok (pretty z).

(** [str(v)], which is what an f-string field [{v}] prints. *)
Definition str `{Runtime} (v : value) : result string :=
  match v with
  | VStr s => Ok s
  | VInt z => int_str z
  | VNone => Ok "None"
  | VBool b => Ok (if b then "True" else "False")
  | VFloat f => Ok (float_repr f)
  | VList _ | VDict _ => container_repr v
  end.

Definition as_str (v : value) : result string :=
  match v with VStr s => Ok s | _ => Raise TypeError end.

(** [sep.join(v)] *)
Definition join (sep : string) (v : value) : result string :=
  items ← iter v; strs ← for_each as_str items; Ok (Str.join sep strs).

End Py.

(** ** [analyzer.py]: the signal digest *)

Section Digest.

Context `{Runtime}.

Definition field (v : value) (k : string) : result string :=
  Py.index v k ≫= Py.str.

Definition field_fmt (sp : Num.fspec) (v : value) (k : string) : result string :=
  Py.index v k ≫= Num.format sp.

(** Body of the loop over [top_protocols]. *)
Definition protocol_line (p : value) : result (list string) :=
  name ← field p "name";
  category ← field p "category";
  tvl ← field_fmt Num.comma_0f p "tvl";
  c7 ← field_fmt Num.plus_1f p "change_7d";
  c1 ← field_fmt Num.plus_1f p "change_1d";
  Ok ["  " +:+ name +:+ " (" +:+ category +:+ "): TVL $" +:+ tvl
        +:+ ", 7d: " +:+ c7 +:+ "%, 1d: " +:+ c1 +:+ "%"].

(** Body of the loop over [yields]. *)
Definition yield_line (y : value) : result (list string) :=
  project ← field y "project";
  symbol ← field y "symbol";
  apy ← field_fmt Num.dot_1f y "apy";
  mean ← field_fmt Num.dot_1f y "apy_mean_30d";
  tvl ← field_fmt Num.comma_0f y "tvl_usd";
  Ok ["  " +:+ project +:+ " " +:+ symbol +:+ ": APY " +:+ apy
        +:+ "% (30d avg: " +:+ mean +:+ "%), TVL $" +:+ tvl].

(** Body of the loop over [trending_new]: the repository line and,
    when [topics] is truthy, a line of its first five topics. *)
Definition trending_new_lines (r : value) : result (list string) :=
  name ← field r "name";
  stars ← field r "stars";
  language ← Py.index r "language" ≫= (λ l, Py.str (py_or l (VStr "N/A")));
  description ← (Py.index r "description" ≫= Py.slice_to 100) ≫= Py.str;
  let line := "  " +:+ name +:+ ": ★" +:+ stars +:+ " | " +:+ language
                +:+ " | " +:+ description in
  topics ← Py.get r "topics" VNone;
  (if truthy topics then
     joined ← (Py.index r "topics" ≫= Py.slice_to 5) ≫= Py.join ", ";
     Ok [line; "    topics: " +:+ joined]
   else Ok [line]) : result (list string).

(** Body of the loop over [most_active]. *)
Definition most_active_line (r : value) : result (list string) :=
  name ← field r "name";
  stars ← field r "stars";
  pushed ← (Py.index r "pushed_at" ≫= Py.slice_to 10) ≫= Py.str;
  Ok ["  " +:+ name +:+ ": ★" +:+ stars +:+ " | pushed: " +:+ pushed].

(** Body of the loop over [ecosystem_topics]. *)
Definition topic_line (t : value) : result (list string) :=
  topic ← field t "topic";
  count ← field t "repo_count";
  stars ← field t "total_stars";
  Ok ["  " +:+ topic +:+ ": " +:+ count +:+ " repos, " +:+ stars +:+ " total stars"].

(** Body of the loop over [ecosystem_tokens]. *)
Definition token_line (t : value) : result (list string) :=
  symbol ← field t "symbol";
  price ← field_fmt Num.dot_4f t "price";
  c7 ← field_fmt Num.plus_1f t "change_7d";
  c14 ← field_fmt Num.plus_1f t "change_14d";
  Ok ["  " +:+ symbol +:+ ": $" +:+ price +:+ ", 7d: " +:+ c7
        +:+ "%, 14d: " +:+ c14 +:+ "%"].

(** Body of the loop over [trending]. *)
Definition trending_line (t : value) : result (list string) :=
  name ← field t "name";
  symbol ← field t "symbol";
  Ok ["  " +:+ name +:+ " (" +:+ symbol +:+ ")"].

(** Body of the loop over [categories]. *)
Definition category_line (c : value) : result (list string) :=
  name ← field c "name";
  change ← field_fmt Num.plus_1f c "market_cap_change_24h";
  Ok ["  " +:+ name +:+ ": mcap change 24h: " +:+ change +:+ "%"].

(** Body of the loop over [ecosystem_articles]: the article line and,
    when [summary] is truthy, its first 150 characters. *)
Definition article_lines (a : value) : result (list string) :=
  source ← field a "source";
  title ← field a "title";
  let line := "  [" +:+ source +:+ "] " +:+ title in
  summary ← Py.get a "summary" VNone;
  (if truthy summary then
     short ← (Py.index a "summary" ≫= Py.slice_to 150) ≫= Py.str;
     Ok [line; "    " +:+ short]
   else Ok [line]) : result (list string).

(** Body of the loop over [news_articles]. *)
Definition news_line (a : value) : result (list string) :=
  source ← field a "source";
  title ← field a "title";
  Ok ["  [" +:+ source +:+ "] " +:+ title].

(** Body of the loop over [governance]. *)
Definition governance_line (g : value) : result (list string) :=
  title ← field g "title";
  user ← field g "user";
  Ok ["  " +:+ title +:+ " (by " +:+ user +:+ ")"].

(** [for x in record.get(key, [])[:cap]: body], giving the lines that
    each visited item appends. *)
Definition capped_loop (record : value) (key : string) (cap : nat)
    (body : value → result (list string)) : result (list (list string)) :=
  items ← (Py.get record key (VList []) ≫= Py.slice_to cap) ≫= Py.iter;
  for_each body items.

(** [for x in record.get(key, []): body], with no slice. *)
Definition full_loop (record : value) (key : string)
    (body : value → result (list string)) : result (list (list string)) :=
  items ← Py.get record key (VList []) ≫= Py.iter;
  for_each body items.

(** [if market.get("trending"):] the header line, then
    [for t in market["trending"]: body], with no slice. *)
Definition trending_loop (market : value)
  : result (list string * list (list string)) :=
  trending ← Py.get market "trending" VNone;
  (if truthy trending then
     items ← Py.index market "trending" ≫= Py.iter;
     blocks ← for_each trending_line items;
     Ok ([newline +:+ "Trending Solana tokens on CoinGecko:"], blocks)
   else Ok ([], [])) : result (list string * list (list string)).

Definition category_of (signals : dict) (k : string) : value :=
  default (VDict ∅) (signals !! k).

(** What the loops and conditionals of [build_signal_digest] append to
    [parts], kept apart by origin.  A loop field holds one block of
    lines per visited item. *)
Record Sections : Type := {
  s_tvl : list string;
  s_protocols : list (list string);
  s_yields : list (list string);
  s_tps : list string;
  s_trending_new : list (list string);
  s_most_active : list (list string);
  s_topics : list (list string);
  s_sol : list string;
  s_tokens : list (list string);
  s_trending_header : list string;
  s_trending : list (list string);
  s_categories : list (list string);
  s_articles : list (list string);
  s_news : list (list string);
  s_governance : list (list string)
}.

(** The body of [build_signal_digest], statement by statement. *)
Definition digest_sections (signals : dict) : result Sections :=
  (* Onchain signals *)
  let onchain := category_of signals "onchain" in
  tvl ← Py.get onchain "tvl" (VDict ∅);
  current ← Py.get tvl "current_tvl" (VInt 0) ≫= Num.format Num.comma_0f;
  ch14 ← Py.get tvl "change_14d_pct" (VInt 0) ≫= Num.format Num.plus_1f;
  ch30 ← Py.get tvl "change_30d_pct" (VInt 0) ≫= Num.format Num.plus_1f;
  protocols ← capped_loop onchain "top_protocols" 15 protocol_line;
  yields ← capped_loop onchain "yields" 10 yield_line;
  net ← Py.get onchain "network" (VDict ∅);
  has_tps ← Py.contains "avg_tps" net;
  tps ← ((if has_tps : bool then
            t ← field net "avg_tps"; Ok [newline +:+ "Network TPS (avg): " +:+ t]
          else Ok []) : result (list string));
  (* GitHub signals *)
  let github := category_of signals "github" in
  trending_new ← capped_loop github "trending_new" 10 trending_new_lines;
  most_active ← capped_loop github "most_active" 10 most_active_line;
  topics ← full_loop github "ecosystem_topics" topic_line;
  (* Market signals *)
  let market := category_of signals "market" in
  sol ← Py.get market "sol" (VDict ∅);
  price ← Py.get sol "price_usd" (VInt 0) ≫= Num.format Num.comma_2f;
  s24 ← Py.get sol "change_24h" (VInt 0) ≫= Num.format Num.plus_1f;
  s7 ← Py.get sol "change_7d" (VInt 0) ≫= Num.format Num.plus_1f;
  s14 ← Py.get sol "change_14d" (VInt 0) ≫= Num.format Num.plus_1f;
  s30 ← Py.get sol "change_30d" (VInt 0) ≫= Num.format Num.plus_1f;
  tokens ← capped_loop market "ecosystem_tokens" 15 token_line;
  trending ← trending_loop market;
  categories ← capped_loop market "categories" 10 category_line;
  (* Social signals *)
  let social := category_of signals "social" in
  articles ← capped_loop social "ecosystem_articles" 15 article_lines;
  news ← capped_loop social "news_articles" 10 news_line;
  governance ← capped_loop social "governance" 5 governance_line;
  Ok {| s_tvl := ["Solana TVL: $" +:+ current;
                  "  14d change: " +:+ ch14 +:+ "%";
                  "  30d change: " +:+ ch30 +:+ "%"];
        s_protocols := protocols;
        s_yields := yields;
        s_tps := tps;
        s_trending_new := trending_new;
        s_most_active := most_active;
        s_topics := topics;
        s_sol := ["SOL: $" +:+ price;
                  "  24h: " +:+ s24 +:+ "%, 7d: " +:+ s7 +:+ "%, 14d: " +:+ s14
                    +:+ "%, 30d: " +:+ s30 +:+ "%"];
        s_tokens := tokens;
        s_trending_header := trending.1;
        s_trending := trending.2;
        s_categories := categories;
        s_articles := articles;
        s_news := news;
        s_governance := governance |}.

(** The [parts] list, in the order in which the source appends to it. *)
Definition render (s : Sections) : list string :=
  ("## ONCHAIN SIGNALS" :: s_tvl s
     ++ [newline +:+ "Top protocols by TVL movement (7d):"]
     ++ concat (s_protocols s)
     ++ [newline +:+ "Top yield opportunities:"]
     ++ concat (s_yields s)
     ++ s_tps s
     ++ [newline +:+ "## DEVELOPER SIGNALS";
         "Trending new Solana repos (last 30 days):"]
     ++ concat (s_trending_new s)
     ++ [newline +:+ "Most active repos (last 14 days):"]
     ++ concat (s_most_active s)
     ++ [newline +:+ "Ecosystem topic breakdown:"]
     ++ concat (s_topics s)
     ++ [newline +:+ "## MARKET SIGNALS"]
     ++ s_sol s
     ++ [newline +:+ "Top Solana ecosystem tokens (by market cap):"]
     ++ concat (s_tokens s)
     ++ s_trending_header s
     ++ concat (s_trending s)
     ++ [newline +:+ "Relevant categories:"]
     ++ concat (s_categories s)
     ++ [newline +:+ "## SOCIAL & NEWS SIGNALS";
         "Recent ecosystem articles:"]
     ++ concat (s_articles s)
     ++ [newline +:+ "Crypto news mentioning Solana:"]
     ++ concat (s_news s)
     ++ [newline +:+ "Governance (open SIMDs):"]
     ++ concat (s_governance s))%list.

Definition digest_parts (signals : dict) : result (list string) :=
  render <$> digest_sections signals.

(** [build_signal_digest(signals)]: the parts joined by newlines. *)
Definition build_signal_digest (signals : dict) : result string :=
  Str.join newline <$> digest_parts signals.

End Digest.

(** ** The world outside the program

    What a run reads from its surroundings.  [messages_create key content]
    is the request to the reasoning service with the fixed system prompt,
    model and token limit of the source, answering with the text of the
    first content block or raising; [http_get] is [httpx.get] followed by
    [raise_for_status] and [json]; [persist] writes one JSON document. *)

Record World : Type := {
  anthropic_installed : bool;
  api_key : option string;
  messages_create : string → string → result string;
  today : string;
  now_iso : string;
  http_get : string → result value;
  persist : string → value → result unit
}.

(** ** [analyzer.py]: the analyzer *)

Section Analyzer.

Context `{Runtime}.

Definition list_item (l : list string) (i : nat) : result string :=
  match l !! i with Some x => Ok x | None => Raise IndexError end.

(** The text handed to [json.loads]: the inside of the first fence
    marked [json], else of the first fence, else the whole response. *)
Definition extract_json (text : string) : result string :=
  if Str.contains "```json" text then
    inner ← list_item (Str.split "```json" text) 1;
    list_item (Str.split "```" inner) 0
  else if Str.contains "```" text then
    inner ← list_item (Str.split "```" text) 1;
    list_item (Str.split "```" inner) 0
  else Ok text.

Definition user_message (w : World) (digest : string) : string :=
  "Analyze these Solana ecosystem signals from the past fortnight and identify emerging narratives. Today's date is "
    +:+ today w +:+ "." +:+ newline +:+ newline +:+ digest.

(** The guards of [analyze_with_claude]: the import fails, or the key
    is not set or empty. *)
Definition credential_missing (w : World) : bool :=
  negb (anthropic_installed w)
  || match api_key w with
     | None => true
     | Some key => String.eqb key ""
     end.

(** [analyze_with_claude(signals)] *)
Definition analyze_with_claude (w : World) (signals : dict) : result value :=
  if negb (anthropic_installed w) then Ok (VDict ∅)
  else
    match api_key w with
    | None => Ok (VDict ∅)
    | Some key =>
        if String.eqb key "" then Ok (VDict ∅)
        else
          digest ← build_signal_digest signals;
          response ← messages_create w key (user_message w digest);
          text ← extract_json response;
          match json_loads text with
          | Some parsed => Ok parsed
          | None => Ok (VDict {[ "raw_response" := VStr text ]})
          end
    end.

(** The count loop of [analyze]: the lengths of the list-valued fields
    of the dict-valued entries of [signals]. *)
Definition count_lists (category : dict) (total : nat) : nat :=
  map_fold (λ _ v total, match v with VList l => total + length l | _ => total end)%nat
           total category.

Definition count_signals (signals : dict) : nat :=
  map_fold (λ _ category total,
              match category with
              | VDict c => count_lists c total
              | _ => total
              end) 0%nat signals.

Definition data_sources : value :=
  VList [VStr "DeFiLlama"; VStr "GitHub"; VStr "CoinGecko"; VStr "RSS Feeds";
         VStr "Solana RPC"].

(** The report returned when no narratives were obtained. *)
Definition raw_report (w : World) (digest : string) (total : nat) : value :=
  VDict {[ "analysis_date" := VStr (now_iso w);
           "period" := VStr "Current fortnight";
           "executive_summary" :=
             VStr "Analysis pending — raw signals collected successfully.";
           "narratives" := VList [];
           "raw_digest" := VStr digest;
           "meta" := VDict {[ "signals_analyzed" := VInt (Z.of_nat total);
                              "data_sources" := data_sources;
                              "status" := VStr "raw_signals_only" ]} ]}.

(** [v[k] = x] *)
Definition set_item (v : value) (k : string) (x : value) : result value :=
  match v with
  | VDict d => Ok (VDict (<[k := x]> d))
  | _ => Raise TypeError
  end.

(** [analyze(signals)].  On the accepting path the source stores
    [result.get("meta", {})] under [result["meta"]] and then writes
    [signals_analyzed] into that same object; the [print] that follows
    evaluates [len(result['narratives'])]. *)
Definition analyze (w : World) (signals : dict) : result value :=
  digest ← build_signal_digest signals;
  let total := count_signals signals in
  result ← analyze_with_claude w signals;
  accepted ← (if truthy result then Py.contains "narratives" result else Ok false);
  if accepted : bool then
    meta ← Py.get result "meta" (VDict ∅);
    meta ← set_item meta "signals_analyzed" (VInt (Z.of_nat total));
    result ← set_item result "meta" meta;
    _ ← Py.index result "narratives" ≫= Py.len;
    Ok result
  else Ok (raw_report w digest total).

End Analyzer.

(** ** [main.py]: the orchestrator *)

Section Orchestrator.

Context `{Runtime}.

(** The outcome of the four [collect()] calls. *)
Record Adapters : Type := {
  onchain_collect : result value;
  github_collect : result value;
  market_collect : result value;
  social_collect : result value
}.

(** [collect_all()] *)
Definition collect_all (w : World) (a : Adapters) : result dict :=
  onchain ← onchain_collect a;
  github ← github_collect a;
  market ← market_collect a;
  social ← social_collect a;
  let signals : dict :=
    <["collected_at" := VStr (now_iso w)]>
      (<["social" := social]>
         (<["market" := market]>
            (<["github" := github]>
               (<["onchain" := onchain]> ∅)))) in
  _ ← persist w "signals.json" (VDict signals);
  Ok signals.

(** [run_analysis(signals)] *)
Definition run_analysis (w : World) (signals : dict) : result value :=
  report ← analyze w signals;
  _ ← persist w "analysis.json" report;
  Ok report.

(** [a + b] on two slices: lists and strings concatenate. *)
Definition concat_values (a b : value) : result value :=
  match a, b with
  | VList x, VList y => Ok (VList (x ++ y))
  | VStr x, VStr y => Ok (VStr (x +:+ y))
  | _, _ => Raise TypeError
  end.

(** The [recent_news] entry of the highlights. *)
Definition recent_news (signals : dict) : result value :=
  eco ← Py.get (category_of signals "social") "ecosystem_articles" (VList [])
        ≫= Py.slice_to 5;
  news ← Py.get (category_of signals "social") "news_articles" (VList [])
         ≫= Py.slice_to 5;
  concat_values eco news.

(** The [highlights] dict of [generate_site]. *)
Definition highlights (signals : dict) : result value :=
  sol_price ← Py.get (category_of signals "market") "sol" (VDict ∅);
  tvl ← Py.get (category_of signals "onchain") "tvl" (VDict ∅);
  top_movers ← Py.get (category_of signals "onchain") "top_protocols" (VList [])
               ≫= Py.slice_to 5;
  trending_repos ← Py.get (category_of signals "github") "trending_new" (VList [])
                   ≫= Py.slice_to 5;
  news ← recent_news signals;
  Ok (VDict {[ "sol_price" := sol_price;
               "tvl" := tvl;
               "top_movers" := top_movers;
               "trending_repos" := trending_repos;
               "recent_news" := news ]}).

(** [generate_site(analysis, signals)], returning the document written. *)
Definition generate_site (w : World) (analysis : value) (signals : dict)
  : result value :=
  hl ← highlights signals;
  let site_data :=
    VDict {[ "generated_at" := VStr (now_iso w);
             "analysis" := analysis;
             "highlights" := hl ]} in
  _ ← persist w "data.json" site_data;
  Ok site_data.

End Orchestrator.

(** ** [collectors]: the fetchers behind [onchain.collect] and [market.collect] *)

Section Collectors.

Context `{Runtime}.

Definition DEFILLAMA_BASE : string := "https://api.llama.fi".
Definition COINGECKO_BASE : string := "https://api.coingecko.com/api/v3".

(** [_get(url)]: every exception of the request is caught and turned
    into [None]. *)
Definition _get (w : World) (url : string) : value :=
  match http_get w url with
  | Ok data => data
  | Raise _ => VNone
  end.

(** [v[i]] for an int index [i]; a negative [i] counts from the end. *)
Definition item (v : value) (i : Z) : result value :=
  let pick {A} (l : list A) : option A :=
    let n := Z.of_nat (length l) in
    let j := if i <? 0 then i + n else i in
    if (0 <=? j) && (j <? n) then l !! Z.to_nat j else None in
  match v with
  | VList l => match pick l with Some x => Ok x | None => Raise IndexError end
  | VStr s => match pick (Str.chars s) with
              | Some c => Ok (VStr c)
              | None => Raise IndexError
              end
  | VDict _ => Raise KeyError
  | _ => Raise TypeError
  end.

(** [round(((current - past) / past) * 100, 2)] *)
Definition change_pct (current past : value) : result value :=
  diff ← Num.sub current past;
  ratio ← Num.truediv diff past;
  Ok (VFloat (Num.round_float 2 (Num.mul_int ratio 100))).

Definition data_point (d : value) : result value :=
  date ← Py.index d "date";
  tvl ← Py.index d "tvl";
  Ok (VDict {[ "date" := date; "tvl" := tvl ]}).

(** [get_solana_tvl_history()] *)
Definition get_solana_tvl_history (w : World) : result value :=
  let data := _get w (DEFILLAMA_BASE +:+ "/v2/historicalChainTvl/Solana") in
  if negb (truthy data) then Ok (VDict {[ "error" := VStr "Failed to fetch TVL" ]})
  else
    recent ← Py.slice_last 30 data;
    current ← item recent (-1) ≫= (λ d, Py.index d "tvl");
    n ← Py.len recent;
    tvl_14d ← (if (14 <=? n)%nat then item recent (-14) else item recent 0)
              ≫= (λ d, Py.index d "tvl");
    tvl_30d ← item recent 0 ≫= (λ d, Py.index d "tvl");
    change_14d ← change_pct current tvl_14d;
    change_30d ← change_pct current tvl_30d;
    points ← Py.iter recent ≫= for_each data_point;
    Ok (VDict {[ "current_tvl" := current;
                 "tvl_14d_ago" := tvl_14d;
                 "tvl_30d_ago" := tvl_30d;
                 "change_14d_pct" := change_14d;
                 "change_30d_pct" := change_30d;
                 "data_points" := VList points ]}).

(** The fetchers of [onchain.collect] that are not transcribed here,
    each given by its outcome. *)
Record OnchainFetchers : Type := {
  get_top_protocols : result value;
  get_yield_opportunities : result value;
  get_stablecoin_flows : result value;
  get_network_performance : result value
}.

(** [onchain.collect()] *)
Definition onchain_collect_all (w : World) (f : OnchainFetchers) : result value :=
  tvl ← get_solana_tvl_history w;
  top_protocols ← get_top_protocols f;
  yields ← get_yield_opportunities f;
  stablecoins ← get_stablecoin_flows f;
  network ← get_network_performance f;
  _ ← Py.len top_protocols;
  _ ← Py.len yields;
  Ok (VDict {[ "tvl" := tvl;
               "top_protocols" := top_protocols;
               "yields" := yields;
               "stablecoins" := stablecoins;
               "network" := network;
               "collected_at" := VStr (now_iso w) ]}).

(** [s.upper()] *)
Definition upper (v : value) : result value :=
  match v with
  | VStr s => Ok (VStr (str_upper s))
  | _ => Raise AttributeError
  end.

(** [round(t.get(k) or 0, 2)] *)
Definition rounded_or_zero (t : value) (k : string) : result value :=
  x ← Py.get t k VNone;
  Num.round 2 (py_or x (VInt 0)).

Definition token_entry (t : value) : result value :=
  id ← Py.index t "id";
  symbol ← Py.index t "symbol" ≫= upper;
  name ← Py.index t "name";
  price ← Py.get t "current_price" VNone;
  market_cap ← Py.get t "market_cap" VNone;
  rank ← Py.get t "market_cap_rank" VNone;
  volume ← Py.get t "total_volume" VNone;
  change_24h ← rounded_or_zero t "price_change_percentage_24h";
  change_7d ← rounded_or_zero t "price_change_percentage_7d_in_currency";
  change_14d ← rounded_or_zero t "price_change_percentage_14d_in_currency";
  change_30d ← rounded_or_zero t "price_change_percentage_30d_in_currency";
  Ok (VDict {[ "id" := id;
               "symbol" := symbol;
               "name" := name;
               "price" := price;
               "market_cap" := market_cap;
               "market_cap_rank" := rank;
               "volume_24h" := volume;
               "change_24h" := change_24h;
               "change_7d" := change_7d;
               "change_14d" := change_14d;
               "change_30d" := change_30d ]}).

(** [get_solana_ecosystem_tokens()] *)
Definition get_solana_ecosystem_tokens (w : World) : result value :=
  let data := _get w (COINGECKO_BASE +:+ "/coins/markets") in
  if negb (truthy data) then Ok (VList [])
  else VList <$> (Py.iter data ≫= for_each token_entry).

End Collectors.

(** ** Bundles that the digest can render

    The digest indexes the fields of an entity directly, prints some
    of them with [str] and applies a numeric format or a slice to
    others.  [Shape.bundle] says, field by field, what is enough for
    that: every indexed field present, a scalar that [str] prints
    wherever a field is printed, a number wherever a numeric format is
    applied, a string wherever a slice is taken.  Categories,
    sub-records and lists may be missing. *)

Module Shape.

(** A scalar that [str] prints: [None], a bool, a float, a string, or
    an int of at most [Py.max_str_digits] digits. *)
Definition printable (v : value) : bool :=
  match v with
  | VInt z => negb (Py.str_digits_bound <=? Z.abs z)
  | VList _ | VDict _ => false
  | _ => true
  end.

(** A float, a bool, or an int within the range of a float. *)
Definition numeric (v : value) : bool :=
  match v with
  | VFloat _ | VBool _ => true
  | VInt z => is_ok (Num.float_of_int z)
  | _ => false
  end.

Definition text (v : value) : bool :=
  match v with VStr _ => true | _ => false end.

Definition sliceable (v : value) : bool :=
  match v with VStr _ | VList _ => true | _ => false end.

(** [topics]: falsy, a string, or a list whose first five items are
    strings. *)
Definition topics (v : value) : bool :=
  match v with
  | VStr _ => true
  | VList l => forallb text (take 5 l)
  | _ => negb (truthy v)
  end.

(** [summary]: falsy or a string. *)
Definition summary (v : value) : bool := text v || negb (truthy v).

Definition required (kind : value → bool) (d : dict) (k : string) : bool :=
  match d !! k with Some v => kind v | None => false end.

Definition optional (kind : value → bool) (d : dict) (k : string) : bool :=
  match d !! k with Some v => kind v | None => true end.

(** A dict with all of [fields], each of its kind. *)
Definition entity (fields : list (string * (value → bool))) (v : value) : bool :=
  match v with
  | VDict d => forallb (λ f, required f.2 d f.1) fields
  | _ => false
  end.

Definition protocol : value → bool :=
  entity [("name", printable); ("category", printable); ("tvl", numeric);
          ("change_7d", numeric); ("change_1d", numeric)].

Definition yield_pool : value → bool :=
  entity [("project", printable); ("symbol", printable); ("apy", numeric);
          ("apy_mean_30d", numeric); ("tvl_usd", numeric)].

Definition new_repo (v : value) : bool :=
  entity [("name", printable); ("stars", printable); ("language", printable);
          ("description", text)] v
  && match v with VDict d => optional topics d "topics" | _ => false end.

Definition active_repo : value → bool :=
  entity [("name", printable); ("stars", printable); ("pushed_at", text)].

Definition topic : value → bool :=
  entity [("topic", printable); ("repo_count", printable); ("total_stars", printable)].

Definition token : value → bool :=
  entity [("symbol", printable); ("price", numeric); ("change_7d", numeric);
          ("change_14d", numeric)].

Definition trending_token : value → bool :=
  entity [("name", printable); ("symbol", printable)].

Definition market_category : value → bool :=
  entity [("name", printable); ("market_cap_change_24h", numeric)].

Definition article (v : value) : bool :=
  entity [("source", printable); ("title", printable)] v
  && match v with VDict d => optional summary d "summary" | _ => false end.

Definition news_article : value → bool :=
  entity [("source", printable); ("title", printable)].

Definition proposal : value → bool :=
  entity [("title", printable); ("user", printable)].

(** A list whose first [cap] items are of kind [item]. *)
Definition list_of (cap : nat) (item : value → bool) (v : value) : bool :=
  match v with VList l => forallb item (take cap l) | _ => false end.

(** A list all of whose items are of kind [item]. *)
Definition full_list_of (item : value → bool) (v : value) : bool :=
  match v with VList l => forallb item l | _ => false end.

(** A dict whose listed fields, where present, are of their kind. *)
Definition record (fields : list (string * (value → bool))) (v : value) : bool :=
  match v with
  | VDict d => forallb (λ f, optional f.2 d f.1) fields
  | _ => false
  end.

Definition onchain : value → bool :=
  record [("tvl", record [("current_tvl", numeric); ("change_14d_pct", numeric);
                          ("change_30d_pct", numeric)]);
          ("top_protocols", list_of 15 protocol);
          ("yields", list_of 10 yield_pool);
          ("network", record [("avg_tps", printable)])].

Definition github : value → bool :=
  record [("trending_new", list_of 10 new_repo);
          ("most_active", list_of 10 active_repo);
          ("ecosystem_topics", full_list_of topic)].

Definition market : value → bool :=
  record [("sol", record [("price_usd", numeric); ("change_24h", numeric);
                          ("change_7d", numeric); ("change_14d", numeric);
                          ("change_30d", numeric)]);
          ("ecosystem_tokens", list_of 15 token);
          ("trending", full_list_of trending_token);
          ("categories", list_of 10 market_category)].

Definition social : value → bool :=
  record [("ecosystem_articles", list_of 15 article);
          ("news_articles", list_of 10 news_article);
          ("governance", list_of 5 proposal)].

Definition bundle (signals : dict) : bool :=
  optional onchain signals "onchain"
  && optional github signals "github"
  && optional market signals "market"
  && optional social signals "social".

(** What [generate_site] reads besides the articles: the categories
    [onchain], [github] and [market] are missing or dicts, and
    [top_protocols] and [trending_new] are missing, lists or strings. *)
Definition site_source (signals : dict) : bool :=
  optional (record [("top_protocols", sliceable)]) signals "onchain"
  && optional (record [("trending_new", sliceable)]) signals "github"
  && optional (record []) signals "market".

End Shape.

(** ** The count of the specification

    The sum, over the four category records, of the lengths of their
    sequence-valued fields. *)

Definition category_names : list string := ["onchain"; "github"; "market"; "social"].




(** The bundles of the data model: every category record of the mapping
    sits under one of the four category keys. *)
Definition is_dict (v : value) : bool :=
  match v with VDict _ => true | _ => false end.


(** ** Sample runs

    A runtime and worlds to run the definitions on. *)

Module Sample.

Definition quote : string := String "034"%char EmptyString.

(** The reply of the service in [world_accepting], and what
    [json.loads] makes of the text inside its fence. *)
Definition fenced_reply : string :=
  "Here is the analysis:" +:+ newline +:+ "```json" +:+ newline
    +:+ "{" +:+ quote +:+ "narratives" +:+ quote +:+ ": [], "
    +:+ quote +:+ "meta" +:+ quote +:+ ": {" +:+ quote +:+ "signals_analyzed"
    +:+ quote +:+ ": 999}}" +:+ newline +:+ "```" +:+ newline.

Definition fenced_json : string :=
  newline +:+ "{" +:+ quote +:+ "narratives" +:+ quote +:+ ": [], "
    +:+ quote +:+ "meta" +:+ quote +:+ ": {" +:+ quote +:+ "signals_analyzed"
    +:+ quote +:+ ": 999}}" +:+ newline.

Definition parsed_reply : value :=
  VDict {[ "narratives" := VList [];
           "meta" := VDict {[ "signals_analyzed" := VInt 999 ]} ]}.

(** [json_loads] knows the one document above and rejects the rest. *)
#[global] Instance runtime : Runtime := {|
  float_repr := λ _, "<float>";
  container_repr := λ _, Ok "<repr>";
  json_loads := λ s, if String.eqb s fenced_json then Some parsed_reply else None;
  str_upper := λ s, s
|}.

Definition point (tvl : Z) : value :=
  VDict {[ "date" := VInt 1767225600; "tvl" := VInt tvl ]}.

(** Thirty daily points: 4.5e9 fourteen entries from the end, 5e9 last. *)
Definition tvl_history : value :=
  VList (replicate 16 (point 4000000000) ++ [point 4500000000]
           ++ replicate 12 (point 4800000000) ++ [point 5000000000])%list.

(** The record that [get_solana_tvl_history] makes of [tvl_history]. *)
Definition tvl_record : dict :=
  {[ "current_tvl" := VInt 5000000000;
     "tvl_14d_ago" := VInt 4500000000;
     "tvl_30d_ago" := VInt 4000000000;
     "change_14d_pct" := VFloat (S754_finite false 6254373982510776 (-49));
     "change_30d_pct" := VFloat (Num.of_Z 25);
     "data_points" := tvl_history ]}.

Definition tvl_bundle : dict :=
  {[ "onchain" := VDict {[ "tvl" := VDict tvl_record ]} ]}.

Definition responses (url : string) : result value :=
  if String.eqb url "https://api.llama.fi/v2/historicalChainTvl/Solana"
  then Ok tvl_history
  else Raise RequestError.

(** No credential in the environment. *)
Definition world_no_key : World := {|
  anthropic_installed := true;
  api_key := None;
  messages_create := λ _ _, Raise RequestError;
  today := "2026-02-14";
  now_iso := "2026-02-14T00:00:00+00:00";
  http_get := responses;
  persist := λ _ _, Ok ()
|}.

(** A credential, and a service that answers with prose. *)
Definition world_prose : World := {|
  anthropic_installed := true;
  api_key := Some "sk-test";
  messages_create := λ _ _, Ok "I could not find any narratives.";
  today := "2026-02-14";
  now_iso := "2026-02-14T00:00:00+00:00";
  http_get := responses;
  persist := λ _ _, Ok ()
|}.

(** A credential, and a service that answers with a fenced document. *)
Definition world_accepting : World := {|
  anthropic_installed := true;
  api_key := Some "sk-test";
  messages_create := λ _ _, Ok fenced_reply;
  today := "2026-02-14";
  now_iso := "2026-02-14T00:00:00+00:00";
  http_get := responses;
  persist := λ _ _, Ok ()
|}.

(** An upstream whose only TVL point is zero. *)
Definition world_zero_tvl : World := {|
  anthropic_installed := true;
  api_key := None;
  messages_create := λ _ _, Raise RequestError;
  today := "2026-02-14";
  now_iso := "2026-02-14T00:00:00+00:00";
  http_get := λ _, Ok (VList [point 0]);
  persist := λ _ _, Ok ()
|}.

Definition article (source title : string) : value :=
  VDict {[ "source" := VStr source; "title" := VStr title ]}.

Definition articles_6 : list value :=
  article "Helius Blog" <$> ["A"; "B"; "C"; "D"; "E"; "F"].
Definition news_2 : list value := article "TheBlock" <$> ["X"; "Y"].

Definition protocol_entry (i : nat) : value :=
  VDict {[ "name" := VStr ("protocol-" +:+ pretty i);
           "category" := VStr "Dexes";
           "tvl" := VInt 2000000;
           "change_7d" := VFloat (Num.of_Z 3);
           "change_1d" := VInt 0 ]}.

Definition trending_entry (i : nat) : value :=
  VDict {[ "name" := VStr ("token-" +:+ pretty i); "symbol" := VStr "TKN" ]}.

Definition topic_entry (i : nat) : value :=
  VDict {[ "topic" := VStr ("topic-" +:+ pretty i);
           "repo_count" := VInt 5; "total_stars" := VInt 40 ]}.

(** A bundle with fifty protocols, twenty trending tokens, twelve
    topics, six ecosystem articles and two news articles. *)
Definition bundle : dict :=
  {[ "onchain" := VDict {[ "top_protocols" := VList (protocol_entry <$> seq 0 50) ]};
     "github" := VDict {[ "ecosystem_topics" := VList (topic_entry <$> seq 0 12) ]};
     "market" := VDict {[ "trending" := VList (trending_entry <$> seq 0 20) ]};
     "social" := VDict {[ "ecosystem_articles" := VList articles_6;
                          "news_articles" := VList news_2 ]};
     "collected_at" := VStr "2026-02-14T00:00:00+00:00" ]}.

(** A bundle whose only protocol has no [change_1d]. *)
Definition incomplete_bundle : dict :=
  {[ "onchain" :=
       VDict {[ "top_protocols" :=
                  VList [VDict {[ "name" := VStr "Jito";
                                  "category" := VStr "Liquid Staking";
                                  "tvl" := VInt 2500000000;
                                  "change_7d" := VFloat (Num.of_Z 4) ]}] ]} ]}.

Definition adapters : Adapters := {|
  onchain_collect := Ok (VDict {[ "top_protocols" := VList [] ]});
  github_collect := Ok (VDict {[ "trending_new" := VList [] ]});
  market_collect := Ok (VDict {[ "trending" := VList [] ]});
  social_collect := Ok (VDict {[ "governance" := VList [] ]})
|}.

Definition fetchers : OnchainFetchers := {|
  get_top_protocols := Ok (VList []);
  get_yield_opportunities := Ok (VList []);
  get_stablecoin_flows := Ok (VDict {[ "stablecoins" := VList [] ]});
  get_network_performance := Ok (VDict {[ "avg_tps" := VInt 3000 ]})
|}.

End Sample.

(** ** [collectors/market.py]: SOL price data and category performance *)

Section MarketCollectors.

Context `{Runtime}.

(** [str.lower], a library function like those of [Runtime]. *)
Variable str_lower : string → string.

(** [market.get(k, {}).get("usd")] *)
Definition usd_of (market : value) (k : string) : result value :=
  inner ← Py.get market k (VDict ∅);
  Py.get inner "usd" VNone.

(** [get_sol_price_data()] *)
Definition get_sol_price_data (w : World) : result value :=
  let data := _get w (COINGECKO_BASE +:+ "/coins/solana") in
  if negb (truthy data) then Ok (VDict {[ "error" := VStr "Failed to fetch SOL data" ]})
  else
    market ← Py.get data "market_data" (VDict ∅);
    price_usd ← usd_of market "current_price";
    market_cap ← usd_of market "market_cap";
    volume_24h ← usd_of market "total_volume";
    change_24h ← rounded_or_zero market "price_change_percentage_24h";
    change_7d ← rounded_or_zero market "price_change_percentage_7d";
    change_14d ← rounded_or_zero market "price_change_percentage_14d";
    change_30d ← rounded_or_zero market "price_change_percentage_30d";
    ath ← usd_of market "ath";
    ath_change ← usd_of market "ath_change_percentage";
    ath_change_pct ← Num.round 2 (py_or ath_change (VInt 0));
    Ok (VDict {[ "price_usd" := price_usd;
                 "market_cap" := market_cap;
                 "volume_24h" := volume_24h;
                 "change_24h" := change_24h;
                 "change_7d" := change_7d;
                 "change_14d" := change_14d;
                 "change_30d" := change_30d;
                 "ath" := ath;
                 "ath_change_pct" := ath_change_pct ]}).

Definition category_keywords : list string :=
  ["solana"; "defi"; "liquid staking"; "dex"; "lending"; "yield"; "meme"; "ai";
   "depin"; "rwa"].

(** [s.lower()] *)
Definition lower (v : value) : result string :=
  match v with
  | VStr s => Ok (str_lower s)
  | _ => Raise AttributeError
  end.

(** [any(kw in (c.get("name") or "").lower() for kw in [...])] *)
Definition is_relevant (c : value) : result bool :=
  name ← Py.get c "name" VNone;
  lowered ← lower (py_or name (VStr ""));
  Ok (existsb (λ kw, Str.contains kw lowered) category_keywords).

(** [[c for c in items if keep(c)]], where [keep] may raise. *)
Fixpoint filter_by (keep : value → result bool) (items : list value)
  : result (list value) :=
  match items with
  | [] => Ok []
  | c :: rest =>
      k ← keep c;
      kept ← filter_by keep rest;
      Ok (if k : bool then c :: kept else kept)
  end.

Definition category_entry (c : value) : result value :=
  name ← Py.index c "name";
  market_cap ← Py.get c "market_cap" VNone;
  change ← rounded_or_zero c "market_cap_change_24h";
  volume ← Py.get c "volume_24h" VNone;
  top_3 ← Py.get c "top_3_coins" (VList []) ≫= Py.slice_to 3;
  Ok (VDict {[ "name" := name;
               "market_cap" := market_cap;
               "market_cap_change_24h" := change;
               "volume_24h" := volume;
               "top_3_coins" := top_3 ]}).

(** [get_defi_categories()] *)
Definition get_defi_categories (w : World) : result value :=
  let data := _get w (COINGECKO_BASE +:+ "/coins/categories") in
  if negb (truthy data) then Ok (VList [])
  else
    items ← Py.iter data;
    relevant ← filter_by is_relevant items;
    VList <$> for_each category_entry (take 15 relevant).

End MarketCollectors.

(** ** [main.py]: the command line

    A file of the data and site directories is taken to hold the JSON
    document last written to it, and [json.load] to return that
    document.  The files left behind by a run that raises are not
    described. *)

Section CommandLine.

Context `{Runtime}.

Abbreviation files := (gmap string value).

Inductive outcome : Type :=
| Returned
| Exited (code : Z).

(** [analyze] and [generate_site] start with [signals.get]. *)
Definition loaded_signals (doc : value) : result dict :=
  match doc with
  | VDict signals => Ok signals
  | _ => Raise AttributeError
  end.

(** [main()], with [argv] for [sys.argv]. *)
Definition main (w : World) (a : Adapters) (argv : list string) (fs : files)
  : result (outcome * files) :=
  let mode := default "--full" (argv !! 1%nat) in
  if String.eqb mode "--collect-only" then
    signals ← collect_all w a;
    Ok (Returned, <["signals.json" := VDict signals]> fs)
  else if String.eqb mode "--analyze-only" then
    match fs !! "signals.json" with
    | None => Ok (Exited 1, fs)
    | Some doc =>
        signals ← loaded_signals doc;
        analysis ← run_analysis w signals;
        site ← generate_site w analysis signals;
        Ok (Returned, <["data.json" := site]> (<["analysis.json" := analysis]> fs))
    end
  else
    signals ← collect_all w a;
    analysis ← run_analysis w signals;
    site ← generate_site w analysis signals;
    _ ← Py.get analysis "narratives" (VList []) ≫= Py.len;
    Ok (Returned,
        <["data.json" := site]>
          (<["analysis.json" := analysis]>
             (<["signals.json" := VDict signals]> fs))).

End CommandLine.

(** ** More sample runs *)

Module Cases.

(** A runtime whose [json.loads] reads every text as an answer with a
    string for [meta]. *)
Definition runtime_string_meta : Runtime := {|
  float_repr := λ _, "<float>";
  container_repr := λ _, Ok "<repr>";
  json_loads := λ _, Some (VDict {[ "narratives" := VList [];
                                     "meta" := VStr "n/a" ]});
  str_upper := λ s, s
|}.

(** A credential, and a service that cannot be reached. *)
Definition world_unreachable : World := {|
  anthropic_installed := true;
  api_key := Some "sk-test";
  messages_create := λ _ _, Raise RequestError;
  today := "2026-02-14";
  now_iso := "2026-02-14T00:00:00+00:00";
  http_get := λ _, Raise RequestError;
  persist := λ _ _, Ok ()
|}.

(** A run whose writes to the data directory fail. *)
Definition world_read_only : World := {|
  anthropic_installed := true;
  api_key := None;
  messages_create := λ _ _, Raise RequestError;
  today := "2026-02-14";
  now_iso := "2026-02-14T00:00:00+00:00";
  http_get := λ _, Raise RequestError;
  persist := λ _ _, Raise RequestError
|}.




(** A bundle whose SOL record has [None] for the price, as
    [get_sol_price_data] builds it from a response without one. *)
Definition null_price_bundle : dict :=
  {[ "market" := VDict {[ "sol" := VDict {[ "price_usd" := VNone ]} ]} ]}.

(** ASCII lower case, for [str.lower] on the sample names. *)
Definition ascii_lower (c : ascii) : ascii :=
  let n := nat_of_ascii c in
  if (65 <=? n)%nat && (n <=? 90)%nat then ascii_of_nat (n + 32) else c.

Fixpoint lower_ascii (s : string) : string :=
  match s with
  | EmptyString => EmptyString
  | String c s' => String (ascii_lower c) (lower_ascii s')
  end.

Definition sol_response : value :=
  VDict {[ "id" := VStr "solana";
           "market_data" :=
             VDict {[ "current_price" := VDict {[ "usd" := VInt 150 ]};
                      "price_change_percentage_24h" := VFloat (Num.of_Z 2) ]} ]}.

(** A SOL response without [market_data]. *)
Definition sol_response_bare : value := VDict {[ "id" := VStr "solana" ]}.

Definition category (name : string) : value :=
  VDict {[ "name" := VStr name; "market_cap_change_24h" := VInt 1 ]}.

Definition categories_response : value :=
  VList ([category "Layer 1 (L1)"; category "Solana Ecosystem"; category "Stablecoins"]
           ++ (category <$> replicate 20 "DeFi Index"))%list.

Definition market_responses (sol : value) (url : string) : result value :=
  if String.eqb url "https://api.coingecko.com/api/v3/coins/solana" then Ok sol
  else if String.eqb url "https://api.coingecko.com/api/v3/coins/categories"
  then Ok categories_response
  else if String.eqb url "https://api.coingecko.com/api/v3/coins/markets"
  then Ok (VList [VDict {[ "id" := VStr "bonk"; "symbol" := VStr "bonk";
                           "name" := VStr "Bonk" ]}])
  else Raise RequestError.

Definition world_market (sol : value) : World := {|
  anthropic_installed := true;
  api_key := None;
  messages_create := λ _ _, Raise RequestError;
  today := "2026-02-14";
  now_iso := "2026-02-14T00:00:00+00:00";
  http_get := market_responses sol;
  persist := λ _ _, Ok ()
|}.

End Cases.

(** ** Predicates used in the statements below *)

(** [s.replace(",", "")] *)
Definition without_commas (s : string) : string :=
  string_of_list_ascii
    (filter (λ c, c ≠ ","%char) (list_ascii_of_string s)).

(** The format spec [.0f]. *)
Definition dot_0f : Num.fspec :=
  {| Num.fs_plus := false; Num.fs_comma := false; Num.fs_places := 0 |}.

(** The capped loops of the digest: category, field and cap. *)
Definition digest_cap_table : list (string * string * nat) :=
  [("onchain", "top_protocols", 15%nat); ("onchain", "yields", 10%nat);
   ("github", "trending_new", 10%nat); ("github", "most_active", 10%nat);
   ("market", "ecosystem_tokens", 15%nat); ("market", "categories", 10%nat);
   ("social", "ecosystem_articles", 15%nat); ("social", "news_articles", 10%nat);
   ("social", "governance", 5%nat)].

(** A text without the backtick character. *)
Definition no_backtick (s : string) : bool :=
  forallb (λ c, negb (Ascii.eqb c "`")) (list_ascii_of_string s).

(** * Properties *)

(** ** The result monad and loops *)

Lemma bind_Ok {A B} (m : result A) (f : A → result B) (b : B) :
  m ≫= f = Ok b → ∃ a, m = Ok a ∧ f a = Ok b.
Proof. destruct m as [a|e]; simpl; [eauto | discriminate]. Qed.

Lemma fmap_Ok {A B} (f : A → B) (m : result A) (b : B) :
  f <$> m = Ok b → ∃ a, m = Ok a ∧ b = f a.
Proof. destruct m as [a|e]; simpl; [| discriminate]. intros [= <-]. eauto. Qed.

(** Split a hypothesis [x ← m; k = Ok b] into [m = Ok a] and [k a = Ok b]. *)
Tactic Notation "bind_inv" hyp(H) "as" ident(a) ident(Ha) :=
  lazymatch type of H with
  | fmap _ _ = Ok _ => apply fmap_Ok in H as (a & Ha & H)
  | mbind _ _ = Ok _ => apply bind_Ok in H as (a & Ha & H)
  end.

Tactic Notation "bind_inv" hyp(H) :=
  let a := fresh "a" in
  let Ha := fresh "Ha" in
  bind_inv H as a Ha.

Lemma for_each_length {A B} (f : A → result B) (l : list A) (ys : list B) :
  for_each f l = Ok ys → length ys = length l.
Proof.
  revert ys. induction l as [|x l IH]; intros ys Hl; simpl in Hl.
  - by injection Hl as <-.
  - bind_inv Hl. bind_inv Hl. injection Hl as <-. simpl. f_equal. by apply IH.
Qed.


Lemma for_each_total {A B} (ok : A → bool) (f : A → result B) (l : list A) :
  (∀ x, ok x = true → ∃ y, f x = Ok y) →
  forallb ok l = true → ∃ ys, for_each f l = Ok ys.
Proof.
  intros Hf. induction l as [|x l IH]; simpl; intros Hl.
  - by eexists.
  - apply andb_prop in Hl as [Hx Hl].
    destruct (Hf x Hx) as [y ->]. destruct (IH Hl) as [ys ->]. by eexists.
Qed.



(** ** The orchestrator *)

Lemma collect_all_Ok (w : World) (a : Adapters) (signals : dict) :
  collect_all w a = Ok signals →
  ∃ onchain github market social,
    onchain_collect a = Ok onchain ∧ github_collect a = Ok github
    ∧ market_collect a = Ok market ∧ social_collect a = Ok social
    ∧ signals = <["collected_at" := VStr (now_iso w)]>
                  (<["social" := social]>
                     (<["market" := market]>
                        (<["github" := github]>
                           (<["onchain" := onchain]> ∅)))).
Proof.
  unfold collect_all. intros Hc.
  destruct (onchain_collect a) as [onchain|]; [|discriminate].
  destruct (github_collect a) as [github|]; [|discriminate].
  destruct (market_collect a) as [market|]; [|discriminate].
  destruct (social_collect a) as [social|]; [|discriminate].
  simpl in Hc. bind_inv Hc. injection Hc as <-.
  by exists onchain, github, market, social.
Qed.

(** C7, as amended: the bundle assembled by [collect_all] has exactly
    the keys [onchain], [github], [market], [social] and [collected_at];
    each of the first four is bound to the record its adapter returned
    and [collected_at] to the time of collection.  The developer
    category sits under the key [github], and no key [developer] exists. *)
Theorem collect_all_keys (w : World) (a : Adapters) (signals : dict) :
  collect_all w a = Ok signals →
  dom signals = {[ "onchain"; "github"; "market"; "social"; "collected_at" ]}
  ∧ (∃ onchain github market social,
       onchain_collect a = Ok onchain ∧ signals !! "onchain" = Some onchain
       ∧ github_collect a = Ok github ∧ signals !! "github" = Some github
       ∧ market_collect a = Ok market ∧ signals !! "market" = Some market
       ∧ social_collect a = Ok social ∧ signals !! "social" = Some social)
  ∧ signals !! "collected_at" = Some (VStr (now_iso w))
  ∧ signals !! "developer" = None.
Proof.
  intros Hc.
  destruct (collect_all_Ok w a signals Hc)
    as (onchain & github & market & social & Hon & Hgh & Hmk & Hso & ->).
  split; [| split; [| split]].
  - rewrite !dom_insert_L, dom_empty_L. set_solver.
  - exists onchain, github, market, social. by simplify_map_eq.
  - by simplify_map_eq.
  - by simplify_map_eq.
Qed.

Lemma collect_all_keys_witness :
  ∃ signals, collect_all Sample.world_no_key Sample.adapters = Ok signals
             ∧ dom signals
               = {[ "onchain"; "github"; "market"; "social"; "collected_at" ]}.
Proof.
  eexists. split; [reflexivity|].
  apply (collect_all_keys Sample.world_no_key Sample.adapters). reflexivity.
Defined.

(** The bundle of a run has no key [developer], and its key set is not
    the four names of the data model. *)
Lemma collect_all_not_four_names :
  ∃ signals, collect_all Sample.world_no_key Sample.adapters = Ok signals
             ∧ signals !! "developer" = None
             ∧ dom signals ≠ {[ "onchain"; "developer"; "market"; "social" ]}.
Proof.
  eexists. split; [reflexivity|]. split; [reflexivity|].
  intros Hdom.
  assert (Hin : "developer" ∈ ({[ "onchain"; "developer"; "market"; "social" ]} : gset string))
    by set_solver.
  rewrite <- Hdom in Hin. apply elem_of_dom in Hin as [v Hv].
  vm_compute in Hv. discriminate.
Qed.

(** ** The analyzer *)

Section AnalyzerFacts.

Context `{Runtime}.

Lemma analyze_with_claude_missing (w : World) (signals : dict) :
  credential_missing w = true → analyze_with_claude w signals = Ok (VDict ∅).
Proof.
  unfold credential_missing, analyze_with_claude.
  destruct (anthropic_installed w); simpl; [|done].
  destruct (api_key w) as [key|]; [|done].
  by intros ->.
Qed.

Lemma analyze_with_claude_unparsed (w : World) (signals : dict)
    (key response text d : string) :
  anthropic_installed w = true → api_key w = Some key → key ≠ "" →
  build_signal_digest signals = Ok d →
  messages_create w key (user_message w d) = Ok response →
  extract_json response = Ok text →
  json_loads text = None →
  analyze_with_claude w signals = Ok (VDict {[ "raw_response" := VStr text ]}).
Proof.
  intros Hinst Hkey Hne Hd Hresp Htext Hparse. unfold analyze_with_claude.
  rewrite Hinst, Hkey. simpl.
  destruct (String.eqb_spec key "") as [->|_]; [done|].
  rewrite Hd. simpl. rewrite Hresp. simpl. rewrite Htext. simpl.
  by rewrite Hparse.
Qed.

(** Whatever [analyze_with_claude] returned, a result without the key
    [narratives] sends [analyze] to the raw report. *)
Lemma analyze_falls_back (w : World) (signals : dict) (d : string) (r : dict) :
  build_signal_digest signals = Ok d →
  analyze_with_claude w signals = Ok (VDict r) →
  r !! "narratives" = None →
  analyze w signals = Ok (raw_report w d (count_signals signals)).
Proof.
  intros Hd Hr Hn. unfold analyze. rewrite Hd. simpl. rewrite Hr. simpl.
  destruct (bool_decide (r = ∅)); simpl; [done|].
  rewrite Hn. by rewrite bool_decide_eq_false_2 by (by intros [? ?]).
Qed.


End AnalyzerFacts.

(** ** The signal count *)

Section CountFacts.

Context `{Runtime}.








End CountFacts.

(** ** The digest is never empty *)

Section DigestHead.

Context `{Runtime}.

Lemma join_head (sep x : string) (l : list string) :
  ∃ rest, Str.join sep (x :: l) = x +:+ rest.
Proof.
  unfold Str.join. destruct l as [|y l]; simpl.
  - exists "". symmetry. induction x as [|c x IH]; [done|].
    change (String c (x +:+ "") = String c x). by rewrite IH.
  - by eexists.
Qed.

Lemma digest_head (signals : dict) (d : string) :
  build_signal_digest signals = Ok d →
  ∃ rest, d = "## ONCHAIN SIGNALS" +:+ rest.
Proof.
  unfold build_signal_digest, digest_parts. intros Hd.
  bind_inv Hd as parts Hparts. bind_inv Hparts as s Hs. subst.
  unfold render. apply join_head.
Qed.

Lemma digest_nonempty (signals : dict) (d : string) :
  build_signal_digest signals = Ok d → d ≠ "".
Proof. intros Hd. destruct (digest_head signals d Hd) as [rest ->]. done. Qed.

End DigestHead.

(** ** The analyzer: the claims *)

(** C6, as amended: without the credential or the client package,
    [analyze] still builds the digest first.  When the digest raises,
    [analyze] raises the same exception; when the digest is built,
    [analyze] returns the raw report: [narratives] is the empty list,
    [meta.status] is [raw_signals_only], and [raw_digest] is the digest
    just built, which is not empty. *)
Theorem analyze_without_credential `{Runtime} (w : World) (signals : dict) :
  credential_missing w = true →
  analyze w signals
  = (λ d, raw_report w d (count_signals signals)) <$> build_signal_digest signals
  ∧ (∀ e, build_signal_digest signals = Raise e → analyze w signals = Raise e)
  ∧ ∀ d, build_signal_digest signals = Ok d →
         ∃ report meta,
           analyze w signals = Ok (VDict report)
           ∧ report !! "narratives" = Some (VList [])
           ∧ report !! "raw_digest" = Some (VStr d) ∧ d ≠ ""
           ∧ report !! "meta" = Some (VDict meta)
           ∧ meta !! "status" = Some (VStr "raw_signals_only").
Proof.
  intros Hmissing.
  assert (Hrun : analyze w signals
                 = (λ d, raw_report w d (count_signals signals))
                     <$> build_signal_digest signals).
  { unfold analyze. destruct (build_signal_digest signals) as [d|e]; simpl; [|done].
    by rewrite (analyze_with_claude_missing w signals Hmissing). }
  split; [exact Hrun|]. split.
  { intros e He. by rewrite Hrun, He. }
  intros d Hd. rewrite Hrun, Hd. simpl. unfold raw_report.
  eexists _, _. split; [reflexivity|].
  repeat split; try by simplify_map_eq.
  by apply (digest_nonempty signals).
Qed.

Lemma analyze_without_credential_witness :
  ∃ report, analyze Sample.world_no_key Sample.bundle = Ok (VDict report)
            ∧ report !! "narratives" = Some (VList []).
Proof.
  destruct (analyze_without_credential Sample.world_no_key Sample.bundle eq_refl)
    as (_ & _ & Hfields).
  destruct (build_signal_digest Sample.bundle) as [d|e] eqn:Hd;
    [|vm_compute in Hd; discriminate].
  destruct (Hfields d eq_refl) as (report & meta & Hreport & Hnarr & _).
  exists report. split; [exact Hreport | exact Hnarr].
Defined.

(** Without a credential [analyze] does not always return a report: on
    a bundle whose protocol lacks [change_1d] it raises [KeyError], and
    on a bundle whose SOL price is [None] it raises [TypeError]. *)
Lemma analyze_raises_without_credential :
  credential_missing Sample.world_no_key = true
  ∧ analyze Sample.world_no_key Sample.incomplete_bundle = Raise KeyError
  ∧ analyze Sample.world_no_key Cases.null_price_bundle = Raise TypeError.
Proof. repeat split; vm_compute; reflexivity. Qed.

(** C1, on the code: when the response cannot be parsed,
    [analyze_with_claude] does return a dict holding the text under
    [raw_response], but [analyze] drops it: its report is the raw report
    of the no-credential case, with [raw_digest] and without
    [raw_response]. *)
Theorem unparsed_response_is_dropped `{Runtime} (w : World) (signals : dict)
    (key response text d : string) :
  anthropic_installed w = true → api_key w = Some key → key ≠ "" →
  build_signal_digest signals = Ok d →
  messages_create w key (user_message w d) = Ok response →
  extract_json response = Ok text →
  json_loads text = None →
  analyze_with_claude w signals = Ok (VDict {[ "raw_response" := VStr text ]})
  ∧ analyze w signals = Ok (raw_report w d (count_signals signals))
  ∧ Py.index (raw_report w d (count_signals signals)) "raw_response" = Raise KeyError
  ∧ Py.index (raw_report w d (count_signals signals)) "raw_digest" = Ok (VStr d).
Proof.
  intros Hinst Hkey Hne Hd Hresp Htext Hparse.
  pose proof (analyze_with_claude_unparsed w signals key response text d
                Hinst Hkey Hne Hd Hresp Htext Hparse) as Hraw.
  split; [exact Hraw|]. split; [|split].
  - by apply (analyze_falls_back w signals d {[ "raw_response" := VStr text ]}).
  - unfold raw_report, Py.index. by simplify_map_eq.
  - unfold raw_report, Py.index. by simplify_map_eq.
Qed.

Lemma unparsed_response_is_dropped_witness :
  analyze_with_claude Sample.world_prose ∅
  = Ok (VDict {[ "raw_response" := VStr "I could not find any narratives." ]})
  ∧ ∃ d, analyze Sample.world_prose ∅ = Ok (raw_report Sample.world_prose d 0)
         ∧ Py.index (raw_report Sample.world_prose d 0) "raw_response"
           = Raise KeyError.
Proof.
  destruct (build_signal_digest ∅) as [d|e] eqn:Hd;
    [|vm_compute in Hd; discriminate].
  assert (Hne : "sk-test" ≠ "") by discriminate.
  destruct (unparsed_response_is_dropped Sample.world_prose ∅ "sk-test"
              "I could not find any narratives."
              "I could not find any narratives." d
              eq_refl eq_refl Hne Hd eq_refl eq_refl eq_refl)
    as (Hraw & Hrun & Hnone & _).
  split; [exact Hraw|]. exists d. split; [exact Hrun | exact Hnone].
Defined.



(** ** Code points of a slice *)

Section CharFacts.

(** The number of code points: one for every byte that is not followed
    by a continuation byte. *)
Lemma chars_length_cons (c : ascii) (s : string) :
  length (Str.chars (String c s))
  = (length (Str.chars s) + if Str.starts_inside_char s then 0 else 1)%nat.
Proof.
  simpl. destruct (Str.starts_inside_char s) eqn:Hs.
  - destruct (Str.chars s) as [|h t] eqn:Hc; simpl; [|lia].
    destruct s as [|a s']; [discriminate|]. simpl in Hc.
    destruct (Str.starts_inside_char s'), (Str.chars s'); discriminate.
  - simpl. lia.
Qed.

Lemma chars_length_app (a b : string) :
  (length (Str.chars (a +:+ b)) ≤ length (Str.chars a) + length (Str.chars b))%nat.
Proof.
  induction a as [|c a IH]; [change ("" +:+ b) with b; simpl; lia|].
  change (String c a +:+ b) with (String c (a +:+ b)).
  rewrite !chars_length_cons.
  destruct a as [|c' a].
  - change ("" +:+ b) with b. simpl. destruct (Str.starts_inside_char b); lia.
  - change (String c' a +:+ b) with (String c' (a +:+ b)) in *.
    simpl Str.starts_inside_char. lia.
Qed.

(** The first group starts where the string starts. *)
Lemma chars_head (s h : string) (t : list string) :
  Str.chars s = h :: t → Str.starts_inside_char h = Str.starts_inside_char s.
Proof.
  destruct s as [|c s]; simpl; [discriminate|].
  destruct (Str.starts_inside_char s), (Str.chars s); intros [= <- <-]; done.
Qed.

(** Every group is one code point. *)
Lemma chars_groups (s : string) :
  Forall (λ g, length (Str.chars g) = 1%nat) (Str.chars s).
Proof.
  induction s as [|c s IH]; simpl; [constructor|].
  destruct (Str.starts_inside_char s) eqn:Hs.
  - destruct (Str.chars s) as [|h t] eqn:Hc; [by repeat constructor|].
    inversion IH as [|? ? Hh Ht]; subst. constructor; [|done].
    rewrite chars_length_cons, Hh, (chars_head s h t Hc), Hs. done.
  - constructor; [done|]. exact IH.
Qed.

Lemma chars_concat_length (groups : list string) :
  Forall (λ g, length (Str.chars g) = 1%nat) groups →
  (length (Str.chars (Str.concat groups)) ≤ length groups)%nat.
Proof.
  unfold Str.concat. induction 1 as [|g groups Hg Hall IH]; simpl; [lia|].
  destruct groups as [|g' groups].
  - lia.
  - etrans; [apply chars_length_app|]. rewrite Hg.
    apply le_n_S, IH.
Qed.

(** [s[:n]] has at most [n] characters. *)
Lemma slice_to_length (n : nat) (s : string) :
  (length (Str.chars (Str.slice_to n s)) ≤ n)%nat.
Proof.
  unfold Str.slice_to.
  etrans; [apply chars_concat_length|].
  - apply Forall_take, chars_groups.
  - rewrite length_take. lia.
Qed.

End CharFacts.

(** ** The loops of the digest *)

Section LoopFacts.

Context `{Runtime}.


Lemma capped_loop_list (d : dict) (key : string) (cap : nat)
    (body : value → result (list string)) (l : list value) :
  d !! key = Some (VList l) →
  capped_loop (VDict d) key cap body = for_each body (take cap l).
Proof. intros Hl. unfold capped_loop. simpl. by rewrite Hl. Qed.

Lemma capped_loop_missing (d : dict) (key : string) (cap : nat)
    (body : value → result (list string)) :
  d !! key = None → capped_loop (VDict d) key cap body = Ok [].
Proof. intros Hl. unfold capped_loop. simpl. rewrite Hl. by destruct cap. Qed.

Lemma full_loop_list (d : dict) (key : string)
    (body : value → result (list string)) (l : list value) :
  d !! key = Some (VList l) → full_loop (VDict d) key body = for_each body l.
Proof. intros Hl. unfold full_loop. simpl. by rewrite Hl. Qed.

Lemma full_loop_missing (d : dict) (key : string)
    (body : value → result (list string)) :
  d !! key = None → full_loop (VDict d) key body = Ok [].
Proof. intros Hl. unfold full_loop. simpl. by rewrite Hl. Qed.

Lemma trending_loop_list (d : dict) (l : list value) :
  d !! "trending" = Some (VList l) →
  trending_loop (VDict d)
  = match l with
    | [] => Ok ([], [])
    | _ => blocks ← for_each trending_line l;
           Ok ([newline +:+ "Trending Solana tokens on CoinGecko:"], blocks)
    end.
Proof.
  intros Hl. unfold trending_loop. simpl. rewrite Hl. simpl.
  by destruct l.
Qed.

Lemma trending_loop_missing (d : dict) :
  d !! "trending" = None → trending_loop (VDict d) = Ok ([], []).
Proof. intros Hl. unfold trending_loop. simpl. by rewrite Hl. Qed.











End LoopFacts.

(** ** What a successful digest is made of *)

Section DigestFacts.

Context `{Runtime}.

Lemma digest_sections_Ok (signals : dict) (s : Sections) :
  digest_sections signals = Ok s →
  (∃ tvl ch14,
      Py.get (category_of signals "onchain") "tvl" (VDict ∅) = Ok tvl
      ∧ Py.get tvl "change_14d_pct" (VInt 0) ≫= Num.format Num.plus_1f = Ok ch14
      ∧ s_tvl s !! 1%nat = Some ("  14d change: " +:+ ch14 +:+ "%")
      ∧ length (s_tvl s) = 3%nat)
  ∧ capped_loop (category_of signals "onchain") "top_protocols" 15 protocol_line
    = Ok (s_protocols s)
  ∧ capped_loop (category_of signals "onchain") "yields" 10 yield_line
    = Ok (s_yields s)
  ∧ capped_loop (category_of signals "github") "trending_new" 10 trending_new_lines
    = Ok (s_trending_new s)
  ∧ capped_loop (category_of signals "github") "most_active" 10 most_active_line
    = Ok (s_most_active s)
  ∧ full_loop (category_of signals "github") "ecosystem_topics" topic_line
    = Ok (s_topics s)
  ∧ capped_loop (category_of signals "market") "ecosystem_tokens" 15 token_line
    = Ok (s_tokens s)
  ∧ trending_loop (category_of signals "market")
    = Ok (s_trending_header s, s_trending s)
  ∧ capped_loop (category_of signals "market") "categories" 10 category_line
    = Ok (s_categories s)
  ∧ capped_loop (category_of signals "social") "ecosystem_articles" 15 article_lines
    = Ok (s_articles s)
  ∧ capped_loop (category_of signals "social") "news_articles" 10 news_line
    = Ok (s_news s)
  ∧ capped_loop (category_of signals "social") "governance" 5 governance_line
    = Ok (s_governance s).
Proof.
  unfold digest_sections. intros Hs.
  bind_inv Hs as tvl Htvl. bind_inv Hs as current Hcurrent.
  bind_inv Hs as ch14 Hch14. bind_inv Hs as ch30 Hch30.
  bind_inv Hs as protocols Hprotocols. bind_inv Hs as yields Hyields.
  bind_inv Hs as net Hnet. bind_inv Hs as has_tps Hhas. bind_inv Hs as tps Htps.
  bind_inv Hs as trending_new Hnew. bind_inv Hs as most_active Hactive.
  bind_inv Hs as topics Htopics.
  bind_inv Hs as sol Hsol. bind_inv Hs as price Hprice.
  bind_inv Hs as s24 Hs24. bind_inv Hs as s7 Hs7. bind_inv Hs as s14 Hs14.
  bind_inv Hs as s30 Hs30.
  bind_inv Hs as tokens Htokens. bind_inv Hs as trending Htrending.
  bind_inv Hs as categories Hcategories.
  bind_inv Hs as articles Harticles. bind_inv Hs as news Hnews.
  bind_inv Hs as governance Hgovernance.
  injection Hs as <-. simpl. destruct trending as [header blocks].
  split; [by exists tvl, ch14|]. done.
Qed.

(** The lines of the digest are the rendered sections. *)
Lemma digest_parts_Ok (signals : dict) (parts : list string) :
  digest_parts signals = Ok parts →
  ∃ s, digest_sections signals = Ok s ∧ parts = render s.
Proof. unfold digest_parts. intros Hp. bind_inv Hp as s Hs. by exists s. Qed.

Lemma build_signal_digest_Ok (signals : dict) (d : string) :
  build_signal_digest signals = Ok d →
  ∃ s, digest_sections signals = Ok s ∧ d = Str.join newline (render s).
Proof.
  unfold build_signal_digest. intros Hd. bind_inv Hd as parts Hparts.
  apply digest_parts_Ok in Hparts as (s & Hs & ->). by exists s.
Qed.

End DigestFacts.

(** ** The digest: the claims *)






(** ** The collectors *)

Section CollectorFacts.

Context `{Runtime}.

(** A failed request gives the error record and the empty token list. *)
Lemma tvl_history_unreachable (w : World) (e : exn) :
  http_get w (DEFILLAMA_BASE +:+ "/v2/historicalChainTvl/Solana") = Raise e →
  get_solana_tvl_history w = Ok (VDict {[ "error" := VStr "Failed to fetch TVL" ]}).
Proof. intros Hget. unfold get_solana_tvl_history, _get. by rewrite Hget. Qed.

Lemma ecosystem_tokens_unreachable (w : World) (e : exn) :
  http_get w (COINGECKO_BASE +:+ "/coins/markets") = Raise e →
  get_solana_ecosystem_tokens w = Ok (VList []).
Proof. intros Hget. unfold get_solana_ecosystem_tokens, _get. by rewrite Hget. Qed.

(** The two records that [get_solana_tvl_history] can return. *)
Lemma tvl_history_Ok (w : World) (record : value) :
  get_solana_tvl_history w = Ok record →
  record = VDict {[ "error" := VStr "Failed to fetch TVL" ]}
  ∨ ∃ current tvl_14d tvl_30d change_14d change_30d points,
      change_pct current tvl_14d = Ok change_14d
      ∧ change_pct current tvl_30d = Ok change_30d
      ∧ record = VDict {[ "current_tvl" := current;
                          "tvl_14d_ago" := tvl_14d;
                          "tvl_30d_ago" := tvl_30d;
                          "change_14d_pct" := change_14d;
                          "change_30d_pct" := change_30d;
                          "data_points" := VList points ]}.
Proof.
  unfold get_solana_tvl_history. intros Hrun.
  destruct (negb (truthy _)).
  - left. by injection Hrun as <-.
  - right.
    bind_inv Hrun as recent Hrecent. bind_inv Hrun as current Hcurrent.
    bind_inv Hrun as n Hn. bind_inv Hrun as tvl_14d H14.
    bind_inv Hrun as tvl_30d H30. bind_inv Hrun as change_14d Hc14.
    bind_inv Hrun as change_30d Hc30. bind_inv Hrun as points Hpoints.
    injection Hrun as <-.
    by exists current, tvl_14d, tvl_30d, change_14d, change_30d, points.
Qed.

End CollectorFacts.

(** C9: when the TVL record of the bundle was computed by
    [get_solana_tvl_history] from a current TVL of 5,000,000,000 and a
    value of 4,500,000,000 fourteen days before, given as ints or as
    floats, the third line of the digest is the 14-day change [+11.1%]:
    one decimal place and an explicit sign. *)
Theorem tvl_change_14d_line `{Runtime} (w : World) (signals onchain tvl : dict)
    (current past : value) (parts : list string) :
  get_solana_tvl_history w = Ok (VDict tvl) →
  tvl !! "current_tvl" = Some current →
  tvl !! "tvl_14d_ago" = Some past →
  current ∈ [VInt 5000000000; VFloat (Num.of_Z 5000000000)] →
  past ∈ [VInt 4500000000; VFloat (Num.of_Z 4500000000)] →
  signals !! "onchain" = Some (VDict onchain) →
  onchain !! "tvl" = Some (VDict tvl) →
  digest_parts signals = Ok parts →
  parts !! 2%nat = Some "  14d change: +11.1%".
Proof.
  intros Hrecord Hcurrent Hpast Hcur Hpst Honchain Htvl Hparts.
  apply tvl_history_Ok in Hrecord as [Herr | Hfull].
  { injection Herr as ->. by simplify_map_eq. }
  destruct Hfull as (cur & p14 & p30 & c14 & c30 & pts & Hc14 & _ & Heq).
  injection Heq as ->. simplify_map_eq.
  assert (Hline : Num.format Num.plus_1f c14 = Ok "+11.1").
  { rewrite !elem_of_cons in Hcur, Hpst.
    destruct Hcur as [-> | [-> | Hcur]]; [| |by apply elem_of_nil in Hcur];
      (destruct Hpst as [-> | [-> | Hpst]]; [| |by apply elem_of_nil in Hpst]);
      vm_compute in Hc14; injection Hc14 as <-; vm_compute; reflexivity. }
  apply digest_parts_Ok in Hparts as (s & Hs & ->).
  destruct (digest_sections_Ok signals s Hs) as ((t & ch14 & Ht & Hch14 & Hnth & Hlen) & _).
  unfold category_of in Ht. rewrite Honchain in Ht. simpl in Ht. rewrite Htvl in Ht.
  injection Ht as <-. simpl in Hch14. rewrite lookup_insert_ne in Hch14 by done.
  rewrite lookup_insert_ne in Hch14 by done.
  rewrite lookup_insert_ne in Hch14 by done.
  rewrite lookup_insert_eq in Hch14. simpl in Hch14.
  rewrite Hline in Hch14. injection Hch14 as <-.
  unfold render. rewrite lookup_cons_ne_0 by done. simpl.
  rewrite lookup_app_l by (rewrite Hlen; lia). exact Hnth.
Qed.

Lemma tvl_change_14d_line_witness :
  get_solana_tvl_history Sample.world_no_key = Ok (VDict Sample.tvl_record)
  ∧ ∃ parts, digest_parts Sample.tvl_bundle = Ok parts
             ∧ parts !! 2%nat = Some "  14d change: +11.1%".
Proof.
  assert (Hrecord : get_solana_tvl_history Sample.world_no_key
                    = Ok (VDict Sample.tvl_record)) by (vm_compute; reflexivity).
  split; [exact Hrecord|].
  destruct (digest_parts Sample.tvl_bundle) as [parts|e] eqn:Hparts;
    [|vm_compute in Hparts; discriminate].
  exists parts. split; [reflexivity|].
  exact (tvl_change_14d_line Sample.world_no_key Sample.tvl_bundle
           {[ "tvl" := VDict Sample.tvl_record ]} Sample.tvl_record
           (VInt 5000000000) (VInt 4500000000) parts
           Hrecord eq_refl eq_refl (list_elem_of_here _ _) (list_elem_of_here _ _)
           eq_refl eq_refl Hparts).
Defined.

(** C4, on the code: a request that fails is caught by [_get], but a
    response that arrives is used unguarded.  When the upstream answers
    the TVL history with a single point whose TVL is zero, the division
    in [get_solana_tvl_history] raises [ZeroDivisionError], and so does
    [onchain.collect()]. *)
Theorem onchain_collect_raises `{Runtime} (w : World) (f : OnchainFetchers)
    (date : value) :
  http_get w (DEFILLAMA_BASE +:+ "/v2/historicalChainTvl/Solana")
  = Ok (VList [VDict {[ "date" := date; "tvl" := VInt 0 ]}]) →
  get_solana_tvl_history w = Raise ZeroDivisionError
  ∧ onchain_collect_all w f = Raise ZeroDivisionError.
Proof.
  intros Hget.
  assert (Htvl : get_solana_tvl_history w = Raise ZeroDivisionError).
  { unfold get_solana_tvl_history, _get. rewrite Hget. reflexivity. }
  split; [exact Htvl|]. unfold onchain_collect_all. by rewrite Htvl.
Qed.

Lemma onchain_collect_raises_witness :
  onchain_collect_all Sample.world_zero_tvl Sample.fetchers = Raise ZeroDivisionError.
Proof.
  apply (onchain_collect_raises Sample.world_zero_tvl Sample.fetchers (VInt 1767225600)).
  reflexivity.
Defined.

(** A token whose [symbol] is null makes [get_solana_ecosystem_tokens]
    raise as well. *)
Lemma ecosystem_tokens_raise `{Runtime} (w : World) :
  http_get w (COINGECKO_BASE +:+ "/coins/markets")
  = Ok (VList [VDict {[ "id" := VStr "solana"; "symbol" := VNone;
                        "name" := VStr "Solana" ]}]) →
  get_solana_ecosystem_tokens w = Raise AttributeError.
Proof.
  intros Hget. unfold get_solana_ecosystem_tokens, _get. rewrite Hget. reflexivity.
Qed.

(** ** Totality of the digest on shaped bundles *)

Section ShapeFacts.

Context `{Runtime}.

Lemma format_total (sp : Num.fspec) (v : value) :
  Shape.numeric v = true → ∃ s, Num.format sp v = Ok s.
Proof.
  destruct v; simpl; try discriminate; try by eexists.
  destruct (Num.float_of_int z); [by eexists | discriminate].
Qed.

Lemma slice_total (n : nat) (v : value) :
  Shape.sliceable v = true → ∃ v', Py.slice_to n v = Ok v'.
Proof. destruct v; simpl; try discriminate; by eexists. Qed.

Lemma str_total (v : value) :
  Shape.printable v = true → ∃ s, Py.str v = Ok s.
Proof.
  destruct v; simpl; try discriminate; try by eexists.
  unfold Py.int_str. intros Hz. apply negb_true_iff in Hz. rewrite Hz. by eexists.
Qed.

Lemma str_or_total (v : value) (dflt : string) :
  Shape.printable v = true → ∃ s, Py.str (py_or v (VStr dflt)) = Ok s.
Proof.
  intros Hv. unfold py_or. destruct (truthy v); [by apply str_total | by eexists].
Qed.

Lemma slice_str_total (n : nat) (v : value) :
  Shape.text v = true → ∃ s, Py.slice_to n v ≫= Py.str = Ok s.
Proof. destruct v; simpl; try discriminate; by eexists. Qed.

Lemma optional_default (kind : value → bool) (d : dict) (k : string) (dflt : value) :
  kind dflt = true → Shape.optional kind d k = true →
  kind (default dflt (d !! k)) = true.
Proof. unfold Shape.optional. by destruct (d !! k). Qed.

Lemma for_each_as_str (l : list string) : for_each Py.as_str (VStr <$> l) = Ok l.
Proof. induction l as [|x l IH]; csimpl; [done|]. by rewrite IH. Qed.

Lemma join_total (sep : string) (v : value) :
  match v with
  | VStr _ => true
  | VList l => forallb Shape.text l
  | _ => false
  end = true →
  ∃ s, Py.join sep v = Ok s.
Proof.
  unfold Py.join. destruct v; try discriminate; simpl; intros Hv.
  - rewrite for_each_as_str. by eexists.
  - destruct (for_each_total Shape.text Py.as_str l) as [strs ->]; [|done|by eexists].
    intros [] Hx; try discriminate. by eexists.
Qed.

(** Unfold the shape of an entity into its field lookups. *)
Ltac entity_fields Hv :=
  unfold Shape.entity in Hv; simpl in Hv;
  repeat match type of Hv with
         | _ && _ = true => let Hf := fresh "Hf" in apply andb_prop in Hv as [Hf Hv]
         end;
  repeat match goal with
         | Hf : Shape.required _ ?d ?k = true |- _ =>
             unfold Shape.required in Hf;
             let x := fresh "x" in
             let Hx := fresh "Hx" in
             destruct (d !! k) as [x|] eqn:Hx; [|discriminate]
         end.

(** Run a loop body whose field lookups are known. *)
Ltac run_body :=
  unfold field, field_fmt, Py.index;
  repeat first
    [ match goal with
      | Hx : ?d !! ?k = Some _ |- context [?d !! ?k] => rewrite Hx
      | Hn : Shape.numeric ?x = true |- context [Num.format ?sp ?x] =>
          let s := fresh "s" in
          destruct (format_total sp x Hn) as [s ->]
      | Hp : Shape.printable ?x = true |- context [Py.str (py_or ?x (VStr ?d))] =>
          let s := fresh "s" in
          destruct (str_or_total x d Hp) as [s ->]
      | Hp : Shape.printable ?x = true |- context [Py.str ?x] =>
          let s := fresh "s" in
          destruct (str_total x Hp) as [s ->]
      | Ht : Shape.text ?x = true |- context [Py.slice_to ?n ?x ≫= Py.str] =>
          let s := fresh "s" in
          destruct (slice_str_total n x Ht) as [s ->]
      end
    | progress simpl ].

Lemma protocol_line_total (p : value) :
  Shape.protocol p = true → ∃ ls, protocol_line p = Ok ls.
Proof.
  unfold Shape.protocol. destruct p as [| | | | | |d]; try discriminate.
  intros Hv. entity_fields Hv. unfold protocol_line. run_body. by eexists.
Qed.

Lemma yield_line_total (y : value) :
  Shape.yield_pool y = true → ∃ ls, yield_line y = Ok ls.
Proof.
  unfold Shape.yield_pool. destruct y as [| | | | | |d]; try discriminate.
  intros Hv. entity_fields Hv. unfold yield_line. run_body. by eexists.
Qed.

Lemma most_active_line_total (r : value) :
  Shape.active_repo r = true → ∃ ls, most_active_line r = Ok ls.
Proof.
  unfold Shape.active_repo. destruct r as [| | | | | |d]; try discriminate.
  intros Hv. entity_fields Hv. unfold most_active_line. run_body. by eexists.
Qed.

Lemma topic_line_total (t : value) :
  Shape.topic t = true → ∃ ls, topic_line t = Ok ls.
Proof.
  unfold Shape.topic. destruct t as [| | | | | |d]; try discriminate.
  intros Hv. entity_fields Hv. unfold topic_line. run_body. by eexists.
Qed.

Lemma token_line_total (t : value) :
  Shape.token t = true → ∃ ls, token_line t = Ok ls.
Proof.
  unfold Shape.token. destruct t as [| | | | | |d]; try discriminate.
  intros Hv. entity_fields Hv. unfold token_line. run_body. by eexists.
Qed.

Lemma trending_line_total (t : value) :
  Shape.trending_token t = true → ∃ ls, trending_line t = Ok ls.
Proof.
  unfold Shape.trending_token. destruct t as [| | | | | |d]; try discriminate.
  intros Hv. entity_fields Hv. unfold trending_line. run_body. by eexists.
Qed.

Lemma category_line_total (c : value) :
  Shape.market_category c = true → ∃ ls, category_line c = Ok ls.
Proof.
  unfold Shape.market_category. destruct c as [| | | | | |d]; try discriminate.
  intros Hv. entity_fields Hv. unfold category_line. run_body. by eexists.
Qed.

Lemma news_line_total (a : value) :
  Shape.news_article a = true → ∃ ls, news_line a = Ok ls.
Proof.
  unfold Shape.news_article. destruct a as [| | | | | |d]; try discriminate.
  intros Hv. entity_fields Hv. unfold news_line. run_body. by eexists.
Qed.

Lemma governance_line_total (g : value) :
  Shape.proposal g = true → ∃ ls, governance_line g = Ok ls.
Proof.
  unfold Shape.proposal. destruct g as [| | | | | |d]; try discriminate.
  intros Hv. entity_fields Hv. unfold governance_line. run_body. by eexists.
Qed.

Lemma trending_new_lines_total (r : value) :
  Shape.new_repo r = true → ∃ ls, trending_new_lines r = Ok ls.
Proof.
  unfold Shape.new_repo. destruct r as [| | | | | |d]; try discriminate.
  intros Hv. apply andb_prop in Hv as [Hv Htopics].
  entity_fields Hv. unfold trending_new_lines. run_body.
  unfold Shape.optional in Htopics.
  destruct (d !! "topics") as [topics|] eqn:Ht; simpl; [|by eexists].
  destruct (truthy topics) eqn:Htruthy; [|by eexists].
  assert (Hjoin : ∃ joined, Py.slice_to 5 topics ≫= Py.join ", " = Ok joined).
  { destruct topics;
      try (unfold Shape.topics in Htopics; rewrite Htruthy in Htopics;
           discriminate);
      simpl; by apply join_total. }
  destruct Hjoin as [joined ->]. by eexists.
Qed.

Lemma article_lines_total (a : value) :
  Shape.article a = true → ∃ ls, article_lines a = Ok ls.
Proof.
  unfold Shape.article. destruct a as [| | | | | |d]; try discriminate.
  intros Hv. apply andb_prop in Hv as [Hv Hsummary].
  entity_fields Hv. unfold article_lines. run_body.
  unfold Shape.optional in Hsummary.
  destruct (d !! "summary") as [summary|] eqn:Hs; simpl; [|by eexists].
  destruct (truthy summary) eqn:Htruthy; [|by eexists].
  unfold Shape.summary in Hsummary. rewrite Htruthy, orb_false_r in Hsummary.
  destruct (slice_str_total 150 summary Hsummary) as [short ->]. by eexists.
Qed.

(** Loops over lists of well-shaped items run to the end. *)
Lemma capped_loop_total (d : dict) (key : string) (cap : nat)
    (item : value → bool) (body : value → result (list string)) :
  (∀ x, item x = true → ∃ ls, body x = Ok ls) →
  Shape.optional (Shape.list_of cap item) d key = true →
  ∃ blocks, capped_loop (VDict d) key cap body = Ok blocks.
Proof.
  intros Hbody. unfold Shape.optional.
  destruct (d !! key) as [v|] eqn:Hv.
  - destruct v as [| | | | |l|]; try discriminate. simpl. intros Hl.
    rewrite (capped_loop_list d key cap body l Hv).
    by apply (for_each_total item).
  - intros _. rewrite (capped_loop_missing d key cap body Hv). by eexists.
Qed.

Lemma full_loop_total (d : dict) (key : string)
    (item : value → bool) (body : value → result (list string)) :
  (∀ x, item x = true → ∃ ls, body x = Ok ls) →
  Shape.optional (Shape.full_list_of item) d key = true →
  ∃ blocks, full_loop (VDict d) key body = Ok blocks.
Proof.
  intros Hbody. unfold Shape.optional.
  destruct (d !! key) as [v|] eqn:Hv.
  - destruct v as [| | | | |l|]; try discriminate. simpl. intros Hl.
    rewrite (full_loop_list d key body l Hv).
    by apply (for_each_total item).
  - intros _. rewrite (full_loop_missing d key body Hv). by eexists.
Qed.

Lemma trending_loop_total (d : dict) :
  Shape.optional (Shape.full_list_of Shape.trending_token) d "trending" = true →
  ∃ header blocks, trending_loop (VDict d) = Ok (header, blocks).
Proof.
  unfold Shape.optional.
  destruct (d !! "trending") as [v|] eqn:Hv.
  - destruct v as [| | | | |l|]; try discriminate. simpl. intros Hl.
    rewrite (trending_loop_list d l Hv).
    destruct l as [|t l]; [by eexists _, _|].
    destruct (for_each_total Shape.trending_token trending_line (t :: l)
                trending_line_total Hl) as [blocks ->].
    by eexists _, _.
  - intros _. rewrite (trending_loop_missing d Hv). by eexists _, _.
Qed.

(** A default of the right kind keeps an optional field of its kind. *)
Lemma get_numeric (d : dict) (k : string) (sp : Num.fspec) :
  Shape.optional Shape.numeric d k = true →
  ∃ s, Py.get (VDict d) k (VInt 0) ≫= Num.format sp = Ok s.
Proof.
  intros Hk. simpl. apply format_total.
  by apply optional_default.
Qed.

Lemma get_record (fields : list (string * (value → bool))) (d : dict) (k : string) :
  Shape.optional (Shape.record fields) d k = true →
  ∃ d', default (VDict ∅) (d !! k) = VDict d'
        ∧ Shape.record fields (VDict d') = true.
Proof.
  unfold Shape.optional. destruct (d !! k) as [v|]; simpl.
  - destruct v; try discriminate. intros Hv. by eexists.
  - intros _. exists ∅. split; [done|].
    induction fields as [|f fields IH]; simpl; [done|].
    unfold Shape.optional at 1. by rewrite lookup_empty.
Qed.

Lemma bind_Ok_l {A B} (a : A) (f : A → result B) : Ok a ≫= f = f a.
Proof. reflexivity. Qed.

Lemma get_dict (d : dict) (k : string) (dflt : value) :
  Py.get (VDict d) k dflt = Ok (default dflt (d !! k)).
Proof. reflexivity. Qed.

Lemma contains_dict (k : string) (d : dict) :
  Py.contains k (VDict d) = Ok (bool_decide (is_Some (d !! k))).
Proof. reflexivity. Qed.

Lemma tps_total (d : dict) :
  Shape.optional Shape.printable d "avg_tps" = true →
  ∃ tps, ((if bool_decide (is_Some (d !! "avg_tps"))
           then t ← field (VDict d) "avg_tps";
                Ok [newline +:+ "Network TPS (avg): " +:+ t]
           else Ok []) : result (list string)) = Ok tps.
Proof.
  unfold Shape.optional. intros Hprintable.
  case_bool_decide as Htps; [|by eexists].
  destruct Htps as [x Hx]. rewrite Hx in Hprintable.
  unfold field. simpl. rewrite Hx. simpl.
  destruct (str_total x Hprintable) as [t ->]. by eexists.
Qed.

Lemma record_cons (k : string) (kind : value → bool)
    (fields : list (string * (value → bool))) (d : dict) :
  Shape.record ((k, kind) :: fields) (VDict d)
  = Shape.optional kind d k && Shape.record fields (VDict d).
Proof. reflexivity. Qed.

(** Split the shape of a record into the shapes of its fields. *)
Ltac record_fields Hr :=
  rewrite !record_cons in Hr;
  repeat match type of Hr with
         | _ && _ = true => let Hf := fresh "Hf" in apply andb_prop in Hr as [Hf Hr]
         end.

Lemma is_ok_Ok {A} (r : result A) : is_ok r = true → ∃ a, r = Ok a.
Proof. destruct r; [by eexists | discriminate]. Qed.

Lemma digest_sections_total (signals : dict) :
  Shape.bundle signals = true → ∃ s, digest_sections signals = Ok s.
Proof.
  unfold Shape.bundle. intros Hb. apply is_ok_Ok.
  apply andb_prop in Hb as [Hb Hsocial]. apply andb_prop in Hb as [Hb Hmarket].
  apply andb_prop in Hb as [Honchain Hgithub].
  destruct (get_record _ signals "onchain" Honchain) as (onchain & Hon & Sonchain).
  destruct (get_record _ signals "github" Hgithub) as (github & Hgh & Sgithub).
  destruct (get_record _ signals "market" Hmarket) as (market & Hmk & Smarket).
  destruct (get_record _ signals "social" Hsocial) as (social & Hso & Ssocial).
  unfold digest_sections, category_of. rewrite Hon, Hgh, Hmk, Hso.
  clear Honchain Hgithub Hmarket Hsocial Hon Hgh Hmk Hso.
  (* onchain *)
  record_fields Sonchain.
  destruct (get_record _ onchain "tvl" Hf) as (tvl & Htvl & Stvl).
  rewrite (get_dict onchain "tvl" (VDict ∅)), Htvl, bind_Ok_l. record_fields Stvl.
  destruct (get_numeric tvl "current_tvl" Num.comma_0f Hf3) as [current ->].
  rewrite bind_Ok_l.
  destruct (get_numeric tvl "change_14d_pct" Num.plus_1f Hf4) as [ch14 ->].
  rewrite bind_Ok_l.
  destruct (get_numeric tvl "change_30d_pct" Num.plus_1f Hf5) as [ch30 ->].
  rewrite bind_Ok_l.
  destruct (capped_loop_total onchain "top_protocols" 15 _ _
              protocol_line_total Hf0) as [protocols ->].
  rewrite bind_Ok_l.
  destruct (capped_loop_total onchain "yields" 10 _ _ yield_line_total Hf1)
    as [yields ->].
  rewrite bind_Ok_l.
  destruct (get_record _ onchain "network" Hf2) as (net & Hnet & Snet).
  rewrite (get_dict onchain "network" (VDict ∅)), Hnet, bind_Ok_l.
  rewrite (contains_dict "avg_tps" net), bind_Ok_l.
  rewrite record_cons in Snet. apply andb_prop in Snet as [Stps _].
  destruct (tps_total net Stps) as [tps ->]. rewrite bind_Ok_l.
  (* github *)
  record_fields Sgithub.
  destruct (capped_loop_total github "trending_new" 10 _ _
              trending_new_lines_total Hf6) as [trending_new ->].
  rewrite bind_Ok_l.
  destruct (capped_loop_total github "most_active" 10 _ _
              most_active_line_total Hf7) as [most_active ->].
  rewrite bind_Ok_l.
  destruct (full_loop_total github "ecosystem_topics" _ _
              topic_line_total Hf8) as [topics ->].
  rewrite bind_Ok_l.
  (* market *)
  record_fields Smarket.
  destruct (get_record _ market "sol" Hf9) as (sol & Hsol & Ssol).
  rewrite (get_dict market "sol" (VDict ∅)), Hsol, bind_Ok_l. record_fields Ssol.
  destruct (get_numeric sol "price_usd" Num.comma_2f Hf13) as [price ->].
  rewrite bind_Ok_l.
  destruct (get_numeric sol "change_24h" Num.plus_1f Hf14) as [s24 ->].
  rewrite bind_Ok_l.
  destruct (get_numeric sol "change_7d" Num.plus_1f Hf15) as [s7 ->].
  rewrite bind_Ok_l.
  destruct (get_numeric sol "change_14d" Num.plus_1f Hf16) as [s14 ->].
  rewrite bind_Ok_l.
  destruct (get_numeric sol "change_30d" Num.plus_1f Hf17) as [s30 ->].
  rewrite bind_Ok_l.
  destruct (capped_loop_total market "ecosystem_tokens" 15 _ _
              token_line_total Hf10) as [tokens ->].
  rewrite bind_Ok_l.
  destruct (trending_loop_total market Hf11) as (header & trending & ->).
  rewrite bind_Ok_l.
  destruct (capped_loop_total market "categories" 10 _ _
              category_line_total Hf12) as [categories ->].
  rewrite bind_Ok_l.
  (* social *)
  record_fields Ssocial.
  destruct (capped_loop_total social "ecosystem_articles" 15 _ _
              article_lines_total Hf18) as [articles ->].
  rewrite bind_Ok_l.
  destruct (capped_loop_total social "news_articles" 10 _ _
              news_line_total Hf19) as [news ->].
  rewrite bind_Ok_l.
  destruct (capped_loop_total social "governance" 5 _ _
              governance_line_total Hf20) as [governance ->].
  rewrite bind_Ok_l. reflexivity.
Qed.

End ShapeFacts.




(** ** The highlights of the site document *)

Section SiteFacts.

Lemma get_sliced (d : dict) (k : string) (n : nat) :
  Shape.optional Shape.sliceable d k = true →
  ∃ v, Py.slice_to n (default (VList []) (d !! k)) = Ok v.
Proof. intros Hk. apply slice_total. by apply optional_default. Qed.

Lemma recent_news_lists (signals social : dict) (eco news : list value) :
  signals !! "social" = Some (VDict social) →
  social !! "ecosystem_articles" = Some (VList eco) →
  social !! "news_articles" = Some (VList news) →
  recent_news signals = Ok (VList (take 5 eco ++ take 5 news)).
Proof.
  intros Hsocial Heco Hnews. unfold recent_news, category_of.
  rewrite Hsocial. simpl. rewrite Heco, Hnews. reflexivity.
Qed.

End SiteFacts.

(** C8: the site document that [generate_site] writes carries, under
    [highlights], a [recent_news] entry that is the first five ecosystem
    articles followed by the first five news articles, each in its
    source order, so at most ten articles; with ecosystem articles
    [A..F] and news articles [X; Y] it is [A; B; C; D; E; X; Y].
    [generate_site] does return when the other categories it reads are
    missing or dicts with sliceable lists and the write succeeds. *)
Theorem recent_news_merge (w : World) (analysis : value) (signals social : dict)
    (eco news : list value) :
  signals !! "social" = Some (VDict social) →
  social !! "ecosystem_articles" = Some (VList eco) →
  social !! "news_articles" = Some (VList news) →
  (∀ site, generate_site w analysis signals = Ok site →
     persist w "data.json" site = Ok ()
     ∧ ∃ hl, Py.index site "highlights" = Ok hl
             ∧ Py.index hl "recent_news" = Ok (VList (take 5 eco ++ take 5 news)))
  ∧ (Shape.site_source signals = true →
     (∀ doc, persist w "data.json" doc = Ok ()) →
     ∃ site, generate_site w analysis signals = Ok site)
  ∧ (length (take 5 eco ++ take 5 news) ≤ 10)%nat
  ∧ (∀ a b c d e f x y,
       eco = [a; b; c; d; e; f] → news = [x; y] →
       (take 5 eco ++ take 5 news)%list = [a; b; c; d; e; x; y]).
Proof.
  intros Hsocial Heco Hnews.
  pose proof (recent_news_lists signals social eco news Hsocial Heco Hnews) as Hmerge.
  split; [|split; [|split]].
  - intros site Hsite. unfold generate_site in Hsite.
    bind_inv Hsite as hl Hhl. bind_inv Hsite as u Hu. injection Hsite as <-.
    destruct u. split; [exact Hu|].
    exists hl. split.
    { unfold Py.index. by simplify_map_eq. }
    unfold highlights in Hhl.
    bind_inv Hhl as sol Hsol. bind_inv Hhl as tvl Htvl.
    bind_inv Hhl as top_movers Htop. bind_inv Hhl as trending_repos Hrepos.
    bind_inv Hhl as merged Hmerged. injection Hhl as <-.
    rewrite Hmerge in Hmerged. injection Hmerged as <-.
    unfold Py.index. by simplify_map_eq.
  - unfold Shape.site_source. intros Hsource Hpersist.
    apply andb_prop in Hsource as [Hsource Hmarket].
    apply andb_prop in Hsource as [Honchain Hgithub].
    destruct (get_record _ signals "onchain" Honchain) as (onchain & Hon & Sonchain).
    destruct (get_record _ signals "github" Hgithub) as (github & Hgh & Sgithub).
    destruct (get_record _ signals "market" Hmarket) as (market & Hmk & _).
    rewrite record_cons in Sonchain. apply andb_prop in Sonchain as [Stop _].
    rewrite record_cons in Sgithub. apply andb_prop in Sgithub as [Srepos _].
    destruct (get_sliced onchain "top_protocols" 5 Stop) as [top_movers Htop].
    destruct (get_sliced github "trending_new" 5 Srepos) as [trending_repos Hrepos].
    unfold generate_site, highlights, category_of.
    rewrite Hon, Hgh, Hmk. rewrite !get_dict, !bind_Ok_l.
    rewrite Htop, bind_Ok_l, Hrepos, bind_Ok_l, Hmerge, !bind_Ok_l.
    rewrite Hpersist, bind_Ok_l. by eexists.
  - rewrite length_app, !length_take. lia.
  - intros a b c d e f x y -> ->. reflexivity.
Qed.

Lemma recent_news_merge_witness :
  ∃ site hl,
    generate_site Sample.world_no_key (VDict ∅) Sample.bundle = Ok site
    ∧ Py.index site "highlights" = Ok hl
    ∧ Py.index hl "recent_news"
      = Ok (VList ((Sample.article "Helius Blog" <$> ["A"; "B"; "C"; "D"; "E"])
                   ++ (Sample.article "TheBlock" <$> ["X"; "Y"]))%list).
Proof.
  destruct (recent_news_merge Sample.world_no_key (VDict ∅) Sample.bundle
              {[ "ecosystem_articles" := VList Sample.articles_6;
                 "news_articles" := VList Sample.news_2 ]}
              Sample.articles_6 Sample.news_2)
    as (Hhighlight & Hreturns & _).
  - vm_compute. reflexivity.
  - vm_compute. reflexivity.
  - vm_compute. reflexivity.
  - destruct Hreturns as [site Hsite].
    + vm_compute. reflexivity.
    + intros doc. reflexivity.
    + destruct (Hhighlight site Hsite) as (_ & hl & Hhl & Hnews).
      exists site, hl. split; [exact Hsite|]. split; [exact Hhl | exact Hnews].
Defined.

(** * Further properties of the code *)

(** ** Strings: slices, [split] and [join] *)

Section StringFacts.

Lemma append_empty_r (s : string) : s +:+ "" = s.
Proof.
  induction s as [|c s IH]; [done|].
  change (String c (s +:+ "") = String c s). by rewrite IH.
Qed.

Lemma append_assoc (a b c : string) : (a +:+ b) +:+ c = a +:+ b +:+ c.
Proof.
  induction a as [|x a IH]; [done|].
  change (String x ((a +:+ b) +:+ c) = String x (a +:+ b +:+ c)). by rewrite IH.
Qed.

Lemma concat_cons (x : string) (l : list string) :
  Str.concat (x :: l) = x +:+ Str.concat l.
Proof.
  unfold Str.concat. destruct l as [|y l]; simpl.
  - by rewrite append_empty_r.
  - done.
Qed.

Lemma concat_app (l k : list string) :
  Str.concat (l ++ k)%list = Str.concat l +:+ Str.concat k.
Proof.
  induction l as [|x l IH]; [done|].
  change (Str.concat (x :: (l ++ k)%list) = Str.concat (x :: l) +:+ Str.concat k).
  by rewrite !concat_cons, IH, append_assoc.
Qed.

(** Splitting a string into code points loses nothing. *)
Lemma concat_chars (s : string) : Str.concat (Str.chars s) = s.
Proof.
  induction s as [|c s IH]; [done|]. simpl.
  destruct (Str.starts_inside_char s), (Str.chars s) as [|h t];
    rewrite ?concat_cons in *; rewrite ?concat_cons;
    change (String c ?x +:+ ?y) with (String c (x +:+ y));
    change ("" +:+ ?y) with y; by rewrite ?IH.
Qed.

End StringFacts.

(** [s[:n]] is a prefix of [s]: the rest of the code points of [s]
    follow it; it has at most [n] code points; and when [s] has no more
    than [n] code points it is [s] itself. *)
Lemma slice_to_prefix (n : nat) (s : string) :
  s = Str.slice_to n s +:+ Str.concat (drop n (Str.chars s))
  ∧ (length (Str.chars (Str.slice_to n s)) ≤ n)%nat
  ∧ ((length (Str.chars s) ≤ n)%nat → Str.slice_to n s = s).
Proof.
  split; [|split].
  - unfold Str.slice_to. rewrite <- concat_app, take_drop. symmetry. apply concat_chars.
  - apply slice_to_length.
  - intros Hn. unfold Str.slice_to. rewrite take_ge by done. apply concat_chars.
Qed.

Section SplitFacts.

Lemma prefix_app (a s : string) :
  String.prefix a s = true → ∃ r, s = a +:+ r.
Proof.
  revert s. induction a as [|c a IH]; intros s Hp.
  - by exists s.
  - destruct s as [|c' s]; [discriminate|]. simpl in Hp.
    destruct (ascii_dec c c') as [->|]; [|discriminate].
    destruct (IH s Hp) as [r ->]. by exists r.
Qed.

Lemma prefix_of_app (a r : string) : String.prefix a (a +:+ r) = true.
Proof.
  induction a as [|c a IH]; [by destruct r|].
  change (String.prefix (String c a) (String c (a +:+ r)) = true). simpl.
  by destruct (ascii_dec c c).
Qed.

Lemma split_aux_nonempty (sep : string) (skip : nat) (cur : list ascii) (s : string) :
  Str.split_aux sep skip cur s ≠ [].
Proof.
  revert skip cur.
  induction s as [|c s IH]; intros skip cur; cbn [Str.split_aux]; [done|].
  destruct skip; [|apply IH].
  destruct (String.prefix sep (String c s)); [done | apply IH].
Qed.

(** Passing over the rest of a separator. *)
Lemma split_aux_skip (sep b s : string) (cur : list ascii) :
  Str.split_aux sep (String.length b) cur (b +:+ s) = Str.split_aux sep 0 cur s.
Proof.
  induction b as [|c b IH]; [done|].
  change (String c b +:+ s) with (String c (b +:+ s)).
  cbn [Str.split_aux String.length]. exact IH.
Qed.

(** A string that holds the separator splits into two pieces or more. *)
Lemma split_aux_contains (sep s : string) (cur : list ascii) :
  sep ≠ "" → Str.contains sep s = true →
  (2 ≤ length (Str.split_aux sep 0 cur s))%nat.
Proof.
  intros Hsep. revert cur. induction s as [|c s IH]; intros cur Hc.
  - cbn [Str.contains] in Hc. rewrite orb_false_r in Hc. by destruct sep.
  - cbn [Str.contains] in Hc. cbn [Str.split_aux].
    destruct (String.prefix sep (String c s)) eqn:Hp.
    + pose proof (split_aux_nonempty sep (String.length sep - 1) [] s) as Hne.
      destruct (Str.split_aux sep (String.length sep - 1) [] s); [done|].
      cbn [length]. lia.
    + simpl in Hc. by apply IH.
Qed.

End SplitFacts.

(** X1: [extract_json] never raises: whenever the response holds a
    fence, [split] gives the two pieces that the source indexes, so the
    [IndexError] of [split(...)[1]] cannot occur. *)
Theorem extract_json_total `{Runtime} (text : string) :
  ∃ inner, extract_json text = Ok inner.
Proof.
  assert (Hitem0 : ∀ sep s, ∃ x, list_item (Str.split sep s) 0 = Ok x).
  { intros sep s. unfold list_item, Str.split.
    pose proof (split_aux_nonempty sep 0 [] s) as Hne.
    destruct (Str.split_aux sep 0 [] s); [done|]. by eexists. }
  assert (Hitem1 : ∀ sep s, sep ≠ "" → Str.contains sep s = true →
                            ∃ x, list_item (Str.split sep s) 1 = Ok x).
  { intros sep s Hsep Hc. unfold list_item, Str.split.
    pose proof (split_aux_contains sep s [] Hsep Hc) as Hlen.
    destruct (Str.split_aux sep 0 [] s) as [|x [|y l]]; simpl in Hlen; try lia.
    by eexists. }
  unfold extract_json.
  destruct (Str.contains "```json" text) eqn:Hjson.
  - destruct (Hitem1 "```json" text) as [inner ->]; [done..|]. simpl. apply Hitem0.
  - destruct (Str.contains "```" text) eqn:Hfence; [|by eexists].
    destruct (Hitem1 "```" text) as [inner ->]; [done..|]. simpl. apply Hitem0.
Qed.

(** ** Fenced blocks *)

Section FenceFacts.

(** A separator that starts with a backtick. *)
Variable fence_tail : string.
Let fence : string := String "`" fence_tail.

Lemma snoc_append (l : list ascii) (c : ascii) (s : string) :
  string_of_list_ascii (l ++ [c]) +:+ s = string_of_list_ascii l +:+ String c s.
Proof.
  induction l as [|x l IH]; [done|].
  change (String x (string_of_list_ascii (l ++ [c]) +:+ s)
          = String x (string_of_list_ascii l +:+ String c s)).
  by rewrite IH.
Qed.

Lemma fence_not_here (c : ascii) (s : string) :
  Ascii.eqb c "`" = false → String.prefix fence (String c s) = false.
Proof.
  intros Hc. unfold fence. cbn [String.prefix].
  destruct (ascii_dec "`" c) as [<-|]; [discriminate | done].
Qed.

(** A text without backticks is one piece. *)
Lemma split_aux_no_backtick (s : string) (cur : list ascii) :
  no_backtick s = true →
  Str.split_aux fence 0 cur s = [string_of_list_ascii (rev cur) +:+ s].
Proof.
  revert cur. induction s as [|c s IH]; intros cur Hs.
  - cbn [Str.split_aux]. by rewrite append_empty_r.
  - unfold no_backtick in Hs. simpl in Hs. apply andb_prop in Hs as [Hc Hs].
    apply negb_true_iff in Hc.
    cbn [Str.split_aux]. rewrite (fence_not_here c s Hc).
    rewrite (IH (c :: cur) Hs). simpl. by rewrite snoc_append.
Qed.

(** The first piece of a text ends at its first fence. *)
Lemma split_aux_at_fence (pre rest : string) (cur : list ascii) :
  no_backtick pre = true →
  Str.split_aux fence 0 cur (pre +:+ fence +:+ rest)
  = (string_of_list_ascii (rev cur) +:+ pre) :: Str.split_aux fence 0 [] rest.
Proof.
  revert cur. induction pre as [|c pre IH]; intros cur Hpre.
  - change ("" +:+ fence +:+ rest) with (String "`" (fence_tail +:+ rest)).
    cbn [Str.split_aux].
    change (String "`" (fence_tail +:+ rest)) with (fence +:+ rest).
    rewrite prefix_of_app, append_empty_r.
    change (String.length fence - 1)%nat with (String.length fence_tail - 0)%nat.
    rewrite Nat.sub_0_r.
    by rewrite split_aux_skip.
  - unfold no_backtick in Hpre. simpl in Hpre. apply andb_prop in Hpre as [Hc Hpre].
    apply negb_true_iff in Hc.
    change (String c pre +:+ fence +:+ rest) with (String c (pre +:+ fence +:+ rest)).
    cbn [Str.split_aux]. rewrite (fence_not_here c _ Hc).
    rewrite (IH (c :: cur) Hpre). simpl. by rewrite snoc_append.
Qed.

Lemma contains_fence (pre rest : string) :
  Str.contains fence (pre +:+ fence +:+ rest) = true.
Proof.
  induction pre as [|c pre IH].
  - change ("" +:+ fence +:+ rest) with (String "`" (fence_tail +:+ rest)).
    cbn [Str.contains].
    change (String "`" (fence_tail +:+ rest)) with (fence +:+ rest).
    by rewrite prefix_of_app.
  - change (String c pre +:+ fence +:+ rest) with (String c (pre +:+ fence +:+ rest)).
    cbn [Str.contains]. rewrite IH. apply orb_true_r.
Qed.

End FenceFacts.

Section FencedReply.

Lemma prefix_cons_same (c : ascii) (a s : string) :
  String.prefix (String c a) (String c s) = String.prefix a s.
Proof. cbn [String.prefix]. by destruct (ascii_dec c c). Qed.

Lemma prefix_backtick_false (t s : string) :
  no_backtick s = true → String.prefix (String "`" t) s = false.
Proof.
  destruct s as [|c s]; [done|]. unfold no_backtick. simpl forallb. intros Hs.
  apply andb_prop in Hs as [Hc _]. apply negb_true_iff in Hc.
  by apply fence_not_here.
Qed.

Lemma no_backtick_cons (c : ascii) (s : string) :
  no_backtick (String c s) = true →
  Ascii.eqb c "`" = false ∧ no_backtick s = true.
Proof.
  unfold no_backtick. simpl forallb. intros Hs.
  apply andb_prop in Hs as [Hc Hs]. by apply negb_true_iff in Hc.
Qed.

Lemma split_aux_match (sep : string) (c : ascii) (s : string) (cur : list ascii) :
  String.prefix sep (String c s) = true →
  Str.split_aux sep 0 cur (String c s)
  = string_of_list_ascii (rev cur) :: Str.split_aux sep (String.length sep - 1) [] s.
Proof. intros Hp. cbn [Str.split_aux]. by rewrite Hp. Qed.

Lemma split_aux_no_match (sep : string) (c : ascii) (s : string) (cur : list ascii) :
  String.prefix sep (String c s) = false →
  Str.split_aux sep 0 cur (String c s) = Str.split_aux sep 0 (c :: cur) s.
Proof. intros Hp. cbn [Str.split_aux]. by rewrite Hp. Qed.

(** The piece that follows a [json] fence holds the body up to the
    closing fence, and either stops there or runs to the end. *)
Lemma json_fence_first_piece (body post : string) (cur : list ascii) :
  no_backtick body = true → no_backtick post = true →
  ∃ inner tail,
    Str.split_aux "```json" 0 cur (body +:+ "```" +:+ post)
    = (string_of_list_ascii (rev cur) +:+ inner) :: tail
    ∧ (inner = body ∨ inner = body +:+ "```" +:+ post).
Proof.
  revert cur. induction body as [|c body IH]; intros cur Hbody Hpost.
  - change ("" +:+ "```" +:+ post) with (String "`" (String "`" (String "`" post))).
    destruct (String.prefix "json" post) eqn:Hjson.
    + rewrite split_aux_match by (by rewrite !prefix_cons_same).
      eexists "", _. split; [by rewrite append_empty_r | by left].
    + rewrite split_aux_no_match by (by rewrite !prefix_cons_same).
      rewrite split_aux_no_match
        by (rewrite !prefix_cons_same; by apply prefix_backtick_false).
      rewrite split_aux_no_match
        by (rewrite !prefix_cons_same; by apply prefix_backtick_false).
      rewrite (split_aux_no_backtick "``json" post _ Hpost).
      exists ("```" +:+ post), []. split; [|by right].
      simpl rev. by rewrite !snoc_append.
  - apply no_backtick_cons in Hbody as [Hc Hbody].
    change (String c body +:+ "```" +:+ post)
      with (String c (body +:+ "```" +:+ post)).
    rewrite split_aux_no_match by (by apply fence_not_here).
    destruct (IH (c :: cur) Hbody Hpost) as (inner & tail & -> & Hinner).
    exists (String c inner), tail. split.
    + simpl rev. by rewrite snoc_append.
    + destruct Hinner as [-> | ->]; [by left | by right].
Qed.

End FencedReply.

(** X2: a response made of prose, a fence marked [json], a body, a
    closing fence and more prose, with no other backtick, is cut down to
    exactly the body before it is parsed. *)
Theorem extract_json_fenced `{Runtime} (pre body post : string) :
  no_backtick pre = true → no_backtick body = true → no_backtick post = true →
  extract_json (pre +:+ "```json" +:+ body +:+ "```" +:+ post) = Ok body.
Proof.
  intros Hpre Hbody Hpost. unfold extract_json.
  rewrite (contains_fence "``json" pre (body +:+ "```" +:+ post)).
  unfold Str.split.
  rewrite (split_aux_at_fence "``json" pre (body +:+ "```" +:+ post) [] Hpre).
  destruct (json_fence_first_piece body post [] Hbody Hpost)
    as (inner & tail & -> & Hinner).
  unfold list_item. simpl lookup. cbn [mbind result_bind].
  change ("" +:+ inner) with inner.
  destruct Hinner as [-> | ->].
  - by rewrite (split_aux_no_backtick "``" body [] Hbody).
  - by rewrite (split_aux_at_fence "``" body post [] Hbody).
Qed.

Lemma extract_json_fenced_witness :
  extract_json Sample.fenced_reply = Ok Sample.fenced_json.
Proof.
  exact (extract_json_fenced ("Here is the analysis:" +:+ newline)
           Sample.fenced_json newline eq_refl eq_refl eq_refl).
Defined.

(** X3: without a [json] fence, the text between the first two fences
    is what gets parsed, a language tag after the opening fence
    included. *)
Theorem extract_json_plain_fence `{Runtime} (pre body post : string) :
  no_backtick pre = true → no_backtick body = true →
  Str.contains "```json" (pre +:+ "```" +:+ body +:+ "```" +:+ post) = false →
  extract_json (pre +:+ "```" +:+ body +:+ "```" +:+ post) = Ok body.
Proof.
  intros Hpre Hbody Hjson. unfold extract_json. rewrite Hjson.
  rewrite (contains_fence "``" pre (body +:+ "```" +:+ post)).
  unfold Str.split.
  rewrite (split_aux_at_fence "``" pre (body +:+ "```" +:+ post) [] Hpre).
  rewrite (split_aux_at_fence "``" body post [] Hbody).
  unfold list_item. simpl lookup. cbn [mbind result_bind].
  change ("" +:+ body) with body.
  by rewrite (split_aux_no_backtick "``" body [] Hbody).
Qed.

Lemma extract_json_plain_fence_witness :
  extract_json ("Result:" +:+ newline +:+ "```" +:+ "python" +:+ newline
                  +:+ "{}" +:+ newline +:+ "```" +:+ newline)
  = Ok ("python" +:+ newline +:+ "{}" +:+ newline).
Proof.
  exact (extract_json_plain_fence ("Result:" +:+ newline)
           ("python" +:+ newline +:+ "{}" +:+ newline) newline
           eq_refl eq_refl eq_refl).
Defined.

(** ** The analyzer: accepted and rejected results *)

(** X4: when the service's parsed answer is an object with a sized
    [narratives] and a [meta] that is an object or missing, [analyze]
    returns that answer with one change: [meta.signals_analyzed] is the
    counted total.  The narratives, every other top-level field and
    every other [meta] field are the service's. *)
Theorem analyze_keeps_accepted_fields `{Runtime} (w : World) (signals r m : dict)
    (d : string) (narratives : value) :
  build_signal_digest signals = Ok d →
  analyze_with_claude w signals = Ok (VDict r) →
  r !! "narratives" = Some narratives →
  is_ok (Py.len narratives) = true →
  default (VDict ∅) (r !! "meta") = VDict m →
  ∃ report meta,
    analyze w signals = Ok (VDict report)
    ∧ (∀ k, k ≠ "meta" → report !! k = r !! k)
    ∧ report !! "meta" = Some (VDict meta)
    ∧ meta !! "signals_analyzed" = Some (VInt (Z.of_nat (count_signals signals)))
    ∧ (∀ k, k ≠ "signals_analyzed" → meta !! k = m !! k).
Proof.
  intros Hd Hr Hn Hlen Hm.
  exists (<["meta" := VDict (<["signals_analyzed" :=
                                 VInt (Z.of_nat (count_signals signals))]> m)]> r),
         (<["signals_analyzed" := VInt (Z.of_nat (count_signals signals))]> m).
  split; [|split; [|split; [|split]]].
  - unfold analyze. rewrite Hd. cbn [mbind result_bind]. rewrite Hr.
    cbn [mbind result_bind]. simpl truthy.
    assert (Hne : r ≠ ∅) by (intros ->; by rewrite lookup_empty in Hn).
    rewrite bool_decide_eq_false_2 by done. simpl negb. cbn iota.
    unfold Py.contains. rewrite bool_decide_eq_true_2 by (by rewrite Hn).
    cbn [mbind result_bind]. unfold Py.get. rewrite Hm.
    cbn [mbind result_bind set_item]. unfold Py.index.
    rewrite lookup_insert_ne by done. rewrite Hn. cbn [mbind result_bind].
    destruct (Py.len narratives); [done | discriminate].
  - intros k Hk. by rewrite lookup_insert_ne.
  - by rewrite lookup_insert_eq.
  - by rewrite lookup_insert_eq.
  - intros k Hk. by rewrite lookup_insert_ne.
Qed.

Lemma analyze_keeps_accepted_fields_witness :
  ∃ report, analyze Sample.world_accepting Sample.bundle = Ok (VDict report)
            ∧ report !! "narratives" = Some (VList []).
Proof.
  destruct (build_signal_digest Sample.bundle) as [d|e] eqn:Hd;
    [|vm_compute in Hd; discriminate].
  assert (Hr : analyze_with_claude Sample.world_accepting Sample.bundle
               = Ok Sample.parsed_reply) by (vm_compute; reflexivity).
  destruct (analyze_keeps_accepted_fields Sample.world_accepting Sample.bundle
              {[ "narratives" := VList [];
                 "meta" := VDict {[ "signals_analyzed" := VInt 999 ]} ]}
              {[ "signals_analyzed" := VInt 999 ]} d (VList [])
              Hd Hr eq_refl eq_refl eq_refl)
    as (report & meta & Hrun & Hkeep & _).
  exists report. split; [exact Hrun|].
  rewrite (Hkeep "narratives") by discriminate. reflexivity.
Defined.

(** X5: an answer that has [narratives] but whose [meta] is not an
    object makes [analyze] raise [TypeError] instead of falling back. *)
Theorem analyze_raises_on_bad_meta `{Runtime} (w : World) (signals r : dict)
    (d : string) (narratives meta : value) :
  build_signal_digest signals = Ok d →
  analyze_with_claude w signals = Ok (VDict r) →
  r !! "narratives" = Some narratives →
  r !! "meta" = Some meta →
  is_dict meta = false →
  analyze w signals = Raise TypeError.
Proof.
  intros Hd Hr Hn Hm Hmeta.
  unfold analyze. rewrite Hd. cbn [mbind result_bind]. rewrite Hr.
  cbn [mbind result_bind]. simpl truthy.
  assert (Hne : r ≠ ∅) by (intros ->; by rewrite lookup_empty in Hn).
  rewrite bool_decide_eq_false_2 by done. simpl negb. cbn iota.
  unfold Py.contains. rewrite bool_decide_eq_true_2 by (by rewrite Hn).
  cbn [mbind result_bind]. unfold Py.get. rewrite Hm. simpl default.
  cbn [mbind result_bind]. by destruct meta.
Qed.

(** X6: with a credential, a request to the service that fails makes
    [analyze] raise the failure; no report is returned. *)
Theorem analyze_raises_on_request_failure `{Runtime} (w : World) (signals : dict)
    (key d : string) (e : exn) :
  anthropic_installed w = true → api_key w = Some key → key ≠ "" →
  build_signal_digest signals = Ok d →
  messages_create w key (user_message w d) = Raise e →
  analyze w signals = Raise e.
Proof.
  intros Hinst Hkey Hne Hd Hreq.
  unfold analyze. rewrite Hd. cbn [mbind result_bind].
  unfold analyze_with_claude. rewrite Hinst, Hkey. simpl negb. cbn iota.
  destruct (String.eqb_spec key "") as [->|_]; [done|].
  rewrite Hd. cbn [mbind result_bind]. by rewrite Hreq.
Qed.

Lemma analyze_raises_on_bad_meta_witness :
  @analyze Cases.runtime_string_meta Sample.world_prose ∅ = Raise TypeError.
Proof.
  destruct (@build_signal_digest Cases.runtime_string_meta ∅) as [d|e] eqn:Hd;
    [|vm_compute in Hd; discriminate].
  assert (Hr : @analyze_with_claude Cases.runtime_string_meta Sample.world_prose ∅
               = Ok (VDict {[ "narratives" := VList []; "meta" := VStr "n/a" ]}))
    by (vm_compute; reflexivity).
  exact (@analyze_raises_on_bad_meta Cases.runtime_string_meta Sample.world_prose ∅
           {[ "narratives" := VList []; "meta" := VStr "n/a" ]} d
           (VList []) (VStr "n/a") Hd Hr eq_refl eq_refl eq_refl).
Defined.

Lemma analyze_raises_on_request_failure_witness :
  analyze Cases.world_unreachable Sample.bundle = Raise RequestError.
Proof.
  destruct (build_signal_digest Sample.bundle) as [d|e] eqn:Hd;
    [|vm_compute in Hd; discriminate].
  assert (Hne : "sk-test" ≠ "") by discriminate.
  exact (analyze_raises_on_request_failure Cases.world_unreachable Sample.bundle
           "sk-test" d RequestError eq_refl eq_refl Hne Hd eq_refl).
Defined.

(** ** The digest: what it reads *)

(** X7: the digest reads the bundle through its four category records
    only, a missing one counting as an empty record: two bundles that
    agree on them have the same digest, whatever else they hold. *)
Theorem digest_reads_four_categories `{Runtime} (signals1 signals2 : dict) :
  Forall (λ k, category_of signals1 k = category_of signals2 k) category_names →
  build_signal_digest signals1 = build_signal_digest signals2.
Proof.
  unfold category_names. intros Hsame.
  apply Forall_cons in Hsame as [Honchain Hsame].
  apply Forall_cons in Hsame as [Hgithub Hsame].
  apply Forall_cons in Hsame as [Hmarket Hsame].
  apply Forall_cons in Hsame as [Hsocial _].
  unfold build_signal_digest, digest_parts, digest_sections.
  by rewrite Honchain, Hgithub, Hmarket, Hsocial.
Qed.

Lemma digest_reads_four_categories_witness :
  build_signal_digest ∅
  = build_signal_digest {[ "onchain" := VDict ∅;
                           "collected_at" := VStr "2026-02-14T00:00:00+00:00" ]}.
Proof.
  apply digest_reads_four_categories.
  repeat (apply Forall_cons; split; [reflexivity|]). apply Forall_nil. exact I.
Defined.

Section CapFacts.

Context `{Runtime}.

Lemma capped_loop_insert_ne (d : dict) (k key : string) (v : value) (cap : nat)
    (body : value → result (list string)) :
  k ≠ key →
  capped_loop (VDict (<[k := v]> d)) key cap body = capped_loop (VDict d) key cap body.
Proof. intros Hk. unfold capped_loop, Py.get. by rewrite lookup_insert_ne. Qed.

Lemma capped_loop_insert_take (d : dict) (key : string) (l : list value) (cap : nat)
    (body : value → result (list string)) :
  d !! key = Some (VList l) →
  capped_loop (VDict (<[key := VList (take cap l)]> d)) key cap body
  = capped_loop (VDict d) key cap body.
Proof.
  intros Hl. unfold capped_loop, Py.get. rewrite lookup_insert_eq, Hl. simpl.
  by rewrite take_take, Nat.min_id.
Qed.

Lemma full_loop_insert_ne (d : dict) (k key : string) (v : value)
    (body : value → result (list string)) :
  k ≠ key →
  full_loop (VDict (<[k := v]> d)) key body = full_loop (VDict d) key body.
Proof. intros Hk. unfold full_loop, Py.get. by rewrite lookup_insert_ne. Qed.

Lemma trending_loop_insert_ne (d : dict) (k : string) (v : value) :
  k ≠ "trending" →
  trending_loop (VDict (<[k := v]> d)) = trending_loop (VDict d).
Proof.
  intros Hk. unfold trending_loop, Py.get, Py.index. by rewrite lookup_insert_ne.
Qed.

Lemma get_insert_ne (d : dict) (k key : string) (v dflt : value) :
  k ≠ key → Py.get (VDict (<[k := v]> d)) key dflt = Py.get (VDict d) key dflt.
Proof. intros Hk. unfold Py.get. by rewrite lookup_insert_ne. Qed.

End CapFacts.

(** X8: each capped loop of the digest looks at the first [cap] items
    of its list only: cutting the list of a bundle down to those items
    leaves the digest as it was. *)
Theorem digest_ignores_items_beyond_cap `{Runtime} (category key : string)
    (cap : nat) (signals record : dict) (l : list value) :
  (category, key, cap) ∈ digest_cap_table →
  signals !! category = Some (VDict record) →
  record !! key = Some (VList l) →
  build_signal_digest
    (<[category := VDict (<[key := VList (take cap l)]> record)]> signals)
  = build_signal_digest signals.
Proof.
  intros Hin Hrecord Hl. unfold digest_cap_table in Hin.
  unfold build_signal_digest, digest_parts, digest_sections, category_of.
  repeat (apply elem_of_cons in Hin as [Heq | Hin];
          [injection Heq as -> -> ->;
           rewrite lookup_insert_eq, !lookup_insert_ne by done;
           rewrite Hrecord; simpl default;
           rewrite ?(capped_loop_insert_take _ _ l) by done;
           rewrite ?capped_loop_insert_ne, ?full_loop_insert_ne,
             ?trending_loop_insert_ne, ?get_insert_ne by done;
           reflexivity |]).
  by apply elem_of_nil in Hin.
Qed.

Lemma digest_ignores_items_beyond_cap_witness :
  build_signal_digest
    (<["onchain" :=
         VDict (<["top_protocols" :=
                    VList (take 15 (Sample.protocol_entry <$> seq 0 50))]>
                  {[ "top_protocols" := VList (Sample.protocol_entry <$> seq 0 50) ]})]>
       Sample.bundle)
  = build_signal_digest Sample.bundle.
Proof.
  apply (digest_ignores_items_beyond_cap "onchain" "top_protocols" 15).
  - apply list_elem_of_here.
  - reflexivity.
  - reflexivity.
Defined.

(** ** Number formats in the digest *)

Section FormatFacts.

Lemma format_plus_sign (v : value) (text : string) :
  Num.format Num.plus_1f v = Ok text →
  ∃ sign rest, text = sign +:+ rest ∧ (sign = "+" ∨ sign = "-").
Proof.
  assert (Hfloat : ∀ f, ∃ sign rest,
             Num.format_float Num.plus_1f f = sign +:+ rest
             ∧ (sign = "+" ∨ sign = "-")).
  { intros f. unfold Num.format_float, Num.sign_of. simpl Num.fs_plus.
    destruct f as [[]|[]| |[] m e]; eexists _, _; split; try reflexivity; auto. }
  destruct v; simpl; try discriminate.
  - intros [= <-]. apply Hfloat.
  - intros Hv. bind_inv Hv as f Hf. injection Hv as <-. apply Hfloat.
  - intros [= <-]. apply Hfloat.
Qed.

Lemma pretty_digit (z : Z) :
  0 ≤ z < 10 → ∃ c, pretty z = String c "".
Proof.
  intros Hz.
  assert (Hcases : z = 0 ∨ z = 1 ∨ z = 2 ∨ z = 3 ∨ z = 4 ∨ z = 5 ∨ z = 6
                   ∨ z = 7 ∨ z = 8 ∨ z = 9) by lia.
  repeat (destruct Hcases as [-> | Hcases]; [by eexists|]).
  subst. by eexists.
Qed.

(** A finite number printed with [.1f] ends in a point and one digit. *)
Lemma fixed_one_decimal (n : Z) :
  ∃ whole digit, Num.fixed_digits Num.plus_1f n = whole +:+ "." +:+ String digit "".
Proof.
  unfold Num.fixed_digits. simpl Num.fs_places. simpl Num.fs_comma. cbn iota.
  destruct (pretty_digit (n `mod` 10 ^ Z.of_nat 1)) as [c Hc].
  { change (10 ^ Z.of_nat 1) with 10. apply Z.mod_pos_bound. lia. }
  rewrite Hc. by eexists _, c.
Qed.

End FormatFacts.

(** X9: in every digest the 14-day change of the TVL is printed with an
    explicit sign: the second TVL line reads [  14d change: ] followed by
    [+] or [-], the number and [%]. *)
Theorem tvl_change_has_explicit_sign `{Runtime} (signals : dict) (d : string) :
  build_signal_digest signals = Ok d →
  ∃ s sign number,
    digest_sections signals = Ok s
    ∧ s_tvl s !! 1%nat = Some ("  14d change: " +:+ (sign +:+ number) +:+ "%")
    ∧ (sign = "+" ∨ sign = "-").
Proof.
  intros Hd. apply build_signal_digest_Ok in Hd as (s & Hs & _).
  destruct (digest_sections_Ok signals s Hs)
    as ((tvl & ch14 & _ & Hch14 & Hline & _) & _).
  bind_inv Hch14 as v Hv.
  destruct (format_plus_sign v ch14 Hch14) as (sign & number & -> & Hsign).
  by exists s, sign, number.
Qed.

Lemma tvl_change_has_explicit_sign_witness :
  ∃ s sign number,
    digest_sections Sample.tvl_bundle = Ok s
    ∧ s_tvl s !! 1%nat = Some ("  14d change: " +:+ (sign +:+ number) +:+ "%")
    ∧ (sign = "+" ∨ sign = "-").
Proof.
  destruct (build_signal_digest Sample.tvl_bundle) as [d|e] eqn:Hd;
    [|vm_compute in Hd; discriminate].
  exact (tvl_change_has_explicit_sign Sample.tvl_bundle d Hd).
Defined.

Section CommaFacts.

Let keep (c : ascii) : Prop := c ≠ ","%char.

Lemma filter_no_comma (l : list ascii) :
  Forall keep l → filter keep l = l.
Proof.
  induction 1 as [|c l Hc _ IH]; [done|].
  rewrite filter_cons_True by done. by rewrite IH.
Qed.

Lemma filter_rev (l : list ascii) : filter keep (rev l) = rev (filter keep l).
Proof.
  induction l as [|c l IH]; [done|]. simpl rev. rewrite filter_app, IH.
  destruct (decide (keep c)) as [Hc|Hc].
  - by rewrite !filter_cons_True, filter_nil by done.
  - by rewrite !filter_cons_False, filter_nil, app_nil_r by done.
Qed.

(** Grouping by three only adds commas. *)
Lemma group3_filter (l : list ascii) :
  Forall keep l → filter keep (Num.group3 l) = l.
Proof.
  remember (length l) as n eqn:Hn. revert l Hn.
  induction n as [n IH] using lt_wf_ind. intros l Hn Hl.
  destruct l as [|a [|b [|c [|d rest]]]]; try (by apply filter_no_comma).
  change (Num.group3 (a :: b :: c :: d :: rest))
    with (a :: b :: c :: ","%char :: Num.group3 (d :: rest)).
  inversion Hl as [|? ? Ha Hl1]; subst. inversion Hl1 as [|? ? Hb Hl2]; subst.
  inversion Hl2 as [|? ? Hc Hl3]; subst.
  rewrite !filter_cons_True by done.
  rewrite filter_cons_False by (unfold keep; by intros []).
  rewrite (IH (length (d :: rest))); [done | simpl; lia | done | done].
Qed.

Lemma without_commas_app (a b : string) :
  without_commas (a +:+ b) = without_commas a +:+ without_commas b.
Proof.
  unfold without_commas. induction a as [|c a IH]; [done|].
  change (String c a +:+ b) with (String c (a +:+ b)).
  simpl list_ascii_of_string. rewrite !filter_cons.
  destruct (decide (c ≠ ","%char)); simpl string_of_list_ascii.
  - change (String c ?x +:+ ?y) with (String c (x +:+ y)). by rewrite IH.
  - exact IH.
Qed.

Lemma without_commas_with_commas (digits : string) :
  Forall keep (list_ascii_of_string digits) →
  without_commas (Num.with_commas digits) = digits.
Proof.
  intros Hd. unfold without_commas, Num.with_commas.
  rewrite list_ascii_of_string_of_list_ascii, filter_rev, group3_filter.
  - by rewrite rev_involutive, string_of_list_ascii_of_string.
  - apply Forall_forall. intros c Hc. apply list_elem_of_In, in_rev in Hc.
    rewrite Forall_forall in Hd. by apply Hd, list_elem_of_In.
Qed.

(** Decimal digits hold no comma. *)
Lemma pretty_N_go_keep (x : N) (s : string) :
  Forall keep (list_ascii_of_string s) →
  Forall keep (list_ascii_of_string (pretty_N_go x s)).
Proof.
  revert s. induction (N.lt_wf_0 x) as [x _ IH]; intros s Hs.
  assert (x = 0 ∨ 0 < x)%N as [->|Hx] by lia.
  - by rewrite pretty_N_go_0.
  - rewrite pretty_N_go_step by done. apply IH; [by apply N.div_lt|].
    simpl. constructor; [|done].
    unfold keep, pretty_N_char. by repeat case_match.
Qed.

Lemma pretty_Z_keep (z : Z) : Forall keep (list_ascii_of_string (pretty z)).
Proof.
  assert (HN : ∀ n : N, Forall keep (list_ascii_of_string (pretty n))).
  { intros n. unfold pretty, pretty_N. case_decide.
    - by repeat constructor.
    - apply pretty_N_go_keep. constructor. }
  destruct z as [|p|p]; unfold pretty, pretty_Z.
  - by repeat constructor.
  - apply HN.
  - change ("-" +:+ pretty p) with (String "-" (pretty p)). simpl.
    constructor; [done | apply HN].
Qed.

End CommaFacts.

(** X10: the thousands separators of the TVL line change nothing but
    the commas: whatever [,.0f] prints for a value, [.0f] prints the same
    text with the commas taken out. *)
Theorem commas_only_separate (v : value) (text : string) :
  Num.format Num.comma_0f v = Ok text →
  Num.format dot_0f v = Ok (without_commas text).
Proof.
  assert (Hdigits : ∀ n, without_commas (Num.fixed_digits Num.comma_0f n)
                         = Num.fixed_digits dot_0f n).
  { intros n. unfold Num.fixed_digits. simpl.
    apply without_commas_with_commas, pretty_Z_keep. }
  assert (Hfloat : ∀ f, without_commas (Num.format_float Num.comma_0f f)
                        = Num.format_float dot_0f f).
  { intros f. unfold Num.format_float, Num.sign_of. simpl Num.fs_plus.
    destruct f as [[]|[]| |[] m e]; try reflexivity;
      rewrite without_commas_app, Hdigits; reflexivity. }
  destruct v; simpl; try discriminate.
  - intros [= <-]. by rewrite Hfloat.
  - intros Hv. bind_inv Hv as f Hf. injection Hv as <-. rewrite Hf. simpl.
    by rewrite Hfloat.
  - intros [= <-]. by rewrite Hfloat.
Qed.

Lemma commas_only_separate_witness :
  Num.format Num.comma_0f (VInt 5000000000) = Ok "5,000,000,000"
  ∧ Num.format dot_0f (VInt 5000000000) = Ok "5000000000".
Proof.
  assert (Hc : Num.format Num.comma_0f (VInt 5000000000) = Ok "5,000,000,000")
    by (vm_compute; reflexivity).
  split; [exact Hc|]. exact (commas_only_separate _ _ Hc).
Defined.

(** ** The collectors: failures, bounds and shapes *)

(** X11: the percentage change divides by the earlier value unguarded:
    an earlier value of int zero or float zero raises
    [ZeroDivisionError] whatever the current number is, and an int
    earlier value other than zero never does. *)
Theorem change_pct_zero_division `{Runtime} (current : Z) :
  (∀ f sign, change_pct (VFloat f) (VFloat (S754_zero sign)) = Raise ZeroDivisionError)
  ∧ change_pct (VInt current) (VInt 0) = Raise ZeroDivisionError
  ∧ (∀ past, past ≠ 0 →
       change_pct (VInt current) (VInt past) ≠ Raise ZeroDivisionError).
Proof.
  split; [|split].
  - intros f sign. reflexivity.
  - unfold change_pct. simpl. by destruct (current - 0).
  - intros past Hpast. unfold change_pct. simpl.
    destruct (current - past) eqn:Hdiff; destruct past eqn:Hp; try done;
      unfold Num.truediv; cbn [Num.as_number mbind result_bind];
      match goal with
      | |- context [SFdiv ?p ?e ?x ?y] => destruct (SFdiv p e x y)
      end; simpl; discriminate.
Qed.

(** X12: a request that fails, or that answers with an empty or null
    body, never makes a fetcher raise: the TVL history and the SOL data
    become an error record, the token and category lists become empty. *)
Theorem failed_fetch_degrades `{Runtime} (str_lower : string → string) (w : World) :
  (∀ url data, http_get w url = Ok data → truthy data = false) →
  get_solana_tvl_history w = Ok (VDict {[ "error" := VStr "Failed to fetch TVL" ]})
  ∧ get_solana_ecosystem_tokens w = Ok (VList [])
  ∧ get_sol_price_data w = Ok (VDict {[ "error" := VStr "Failed to fetch SOL data" ]})
  ∧ get_defi_categories str_lower w = Ok (VList []).
Proof.
  intros Hfail.
  assert (Hget : ∀ url, truthy (_get w url) = false).
  { intros url. unfold _get. destruct (http_get w url) as [data|e] eqn:Hurl; [|done].
    by apply (Hfail url). }
  unfold get_solana_tvl_history, get_solana_ecosystem_tokens, get_sol_price_data,
    get_defi_categories.
  by rewrite !Hget.
Qed.

Lemma failed_fetch_degrades_witness :
  get_solana_tvl_history Cases.world_unreachable
  = Ok (VDict {[ "error" := VStr "Failed to fetch TVL" ]})
  ∧ get_solana_ecosystem_tokens Cases.world_unreachable = Ok (VList []).
Proof.
  destruct (failed_fetch_degrades Cases.lower_ascii Cases.world_unreachable)
    as (Htvl & Htokens & _).
  - intros url data Hurl. discriminate Hurl.
  - split; [exact Htvl | exact Htokens].
Defined.

Lemma change_pct_zero_division_witness :
  change_pct (VInt 5) (VInt 0) = Raise ZeroDivisionError
  ∧ change_pct (VInt 5) (VInt 4) ≠ Raise ZeroDivisionError.
Proof.
  destruct (change_pct_zero_division 5) as (_ & Hzero & Hother).
  split; [exact Hzero|]. apply Hother. discriminate.
Defined.

Section TvlRecordFacts.

Context `{Runtime}.

Lemma slice_last_list (n : nat) (l : list value) :
  Py.slice_last n (VList l) = Ok (VList (drop (length l - n) l)).
Proof. reflexivity. Qed.

Lemma last_drop_lt {A} (k : nat) (l : list A) :
  (k < length l)%nat → last (drop k l) = last l.
Proof.
  intros Hk. rewrite !last_lookup, lookup_drop, length_drop. f_equal. lia.
Qed.

End TvlRecordFacts.

(** X13: when the upstream history is a list of [n] points and
    [get_solana_tvl_history] returns, the record keeps the last
    [min n 30] of them as [data_points], each cut down to its [date] and
    [tvl], and [current_tvl] is the [tvl] of the last point. *)
Theorem tvl_history_keeps_last_thirty `{Runtime} (w : World) (data : list value)
    (record : dict) :
  http_get w (DEFILLAMA_BASE +:+ "/v2/historicalChainTvl/Solana") = Ok (VList data) →
  data ≠ [] →
  get_solana_tvl_history w = Ok (VDict record) →
  ∃ points newest,
    record !! "data_points" = Some (VList points)
    ∧ length points = (length data `min` 30)%nat
    ∧ for_each data_point (drop (length data - 30) data) = Ok points
    ∧ last data = Some newest
    ∧ (Ok <$> record !! "current_tvl") = Some (Py.index newest "tvl").
Proof.
  intros Hget Hne Hrun. unfold get_solana_tvl_history, _get in Hrun.
  rewrite Hget in Hrun. destruct data as [|d0 data0] eqn:Hdata; [done|].
  rewrite <- Hdata in *. assert (Htruthy : truthy (VList data) = true) by by subst.
  rewrite Htruthy in Hrun. simpl negb in Hrun. cbn iota in Hrun.
  rewrite slice_last_list in Hrun. cbn [mbind result_bind] in Hrun.
  set (recent := drop (length data - 30) data) in *.
  bind_inv Hrun as current Hcurrent. bind_inv Hrun as n Hn.
  bind_inv Hrun as tvl_14d H14. bind_inv Hrun as tvl_30d H30.
  bind_inv Hrun as change_14d Hc14. bind_inv Hrun as change_30d Hc30.
  bind_inv Hrun as points Hpoints. injection Hrun as <-.
  simpl in Hpoints.
  assert (Hlast : ∃ newest, last data = Some newest) .
  { rewrite Hdata. rewrite last_cons. destruct (last data0); by eexists. }
  destruct Hlast as [newest Hlast].
  exists points, newest. split; [by simplify_map_eq|]. split.
  { rewrite (for_each_length _ _ _ Hpoints). unfold recent.
    rewrite length_drop. lia. }
  split; [exact Hpoints|]. split; [exact Hlast|].
  rewrite lookup_insert_eq. simpl. f_equal.
  bind_inv Hcurrent as d Hd. rewrite <- Hcurrent. f_equal.
  unfold item in Hd. simpl in Hd.
  assert (Hrecent : last recent = Some newest).
  { unfold recent. rewrite last_drop_lt; [done|]. rewrite Hdata. simpl. lia. }
  rewrite last_lookup in Hrecent.
  assert (Hlen : (0 < length recent)%nat).
  { destruct recent; [discriminate | simpl; lia]. }
  replace (-1 + Z.of_nat (length recent) <? Z.of_nat (length recent)) with true in Hd
    by (symmetry; apply Z.ltb_lt; lia).
  replace (0 <=? -1 + Z.of_nat (length recent)) with true in Hd
    by (symmetry; apply Z.leb_le; lia).
  simpl in Hd.
  replace (Z.to_nat (-1 + Z.of_nat (length recent))) with (pred (length recent)) in Hd
    by lia.
  rewrite Hrecent in Hd. by injection Hd as ->.
Qed.

Lemma tvl_history_keeps_last_thirty_witness :
  ∃ data points newest,
    Sample.tvl_history = VList data
    ∧ Sample.tvl_record !! "data_points" = Some (VList points)
    ∧ length points = (length data `min` 30)%nat
    ∧ for_each data_point (drop (length data - 30) data) = Ok points
    ∧ last data = Some newest
    ∧ (Ok <$> Sample.tvl_record !! "current_tvl") = Some (Py.index newest "tvl").
Proof.
  assert (Hrecord : get_solana_tvl_history Sample.world_no_key
                    = Ok (VDict Sample.tvl_record)) by (vm_compute; reflexivity).
  pose (data := (replicate 16 (Sample.point 4000000000) ++ [Sample.point 4500000000]
                   ++ replicate 12 (Sample.point 4800000000)
                   ++ [Sample.point 5000000000])%list).
  assert (Hget : http_get Sample.world_no_key
                   (DEFILLAMA_BASE +:+ "/v2/historicalChainTvl/Solana")
                 = Ok (VList data)) by (vm_compute; reflexivity).
  assert (Hne : data ≠ []).
  { intros Heq. apply (f_equal length) in Heq. vm_compute in Heq. discriminate Heq. }
  destruct (tvl_history_keeps_last_thirty Sample.world_no_key data
              Sample.tvl_record Hget Hne Hrecord) as (points & newest & Hfacts).
  exists data, points, newest. split; [exact eq_refl | exact Hfacts].
Defined.

(** ** How the collectors' records meet the digest *)

Section NullPrice.

Context `{Runtime}.

Lemma category_of_delete_ne (signals : dict) (k k' : string) :
  k ≠ k' → category_of (delete k signals) k' = category_of signals k'.
Proof. intros Hne. unfold category_of. by rewrite lookup_delete_ne. Qed.

(** The digest stops at the SOL line when [price_usd] is [None]. *)
Lemma digest_raises_on_null_price (signals market record : dict) :
  signals !! "market" = Some (VDict market) →
  market !! "sol" = Some (VDict record) →
  record !! "price_usd" = Some VNone →
  is_ok (digest_sections (delete "market" signals)) = true →
  digest_sections signals = Raise TypeError.
Proof.
  intros Hmarket Hsol Hprice Hrest. unfold digest_sections in *. cbv zeta in *.
  rewrite !(category_of_delete_ne signals "market" "onchain") in Hrest by done.
  rewrite !(category_of_delete_ne signals "market" "github") in Hrest by done.
  repeat match type of Hrest with
         | is_ok (?m ≫= _) = true =>
             lazymatch m with
             | context [category_of (delete _ _) _] => fail
             | _ => destruct m eqn:?;
                    [cbn [mbind result_bind] in Hrest |- * | discriminate Hrest]
             end
         end.
  unfold category_of. rewrite Hmarket. simpl default.
  change (Py.get (VDict market) "sol" (VDict ∅))
    with (Ok (default (VDict ∅) (market !! "sol")) : result value).
  rewrite Hsol. simpl default. cbn [mbind result_bind].
  change (Py.get (VDict record) "price_usd" (VInt 0))
    with (Ok (default (VInt 0) (record !! "price_usd")) : result value).
  rewrite Hprice. reflexivity.
Qed.

End NullPrice.

(** X14: a SOL response that carries no [market_data] still gives a
    full record from [get_sol_price_data], with [None] for the price and
    0 for the changes; and whenever the [sol] record of a bundle has
    [None] for [price_usd], [build_signal_digest] raises [TypeError] at
    the SOL line, and so does [analyze], however well the rest of the
    bundle renders. *)
Theorem null_price_breaks_digest `{Runtime} (w : World) (data : dict) :
  http_get w (COINGECKO_BASE +:+ "/coins/solana") = Ok (VDict data) →
  data ≠ ∅ →
  data !! "market_data" = None →
  ∃ record,
    get_sol_price_data w = Ok (VDict record)
    ∧ record !! "price_usd" = Some VNone
    ∧ record !! "change_24h" = Some (VInt 0)
    ∧ ∀ (w' : World) (signals market : dict),
        signals !! "market" = Some (VDict market) →
        market !! "sol" = Some (VDict record) →
        is_ok (build_signal_digest (delete "market" signals)) = true →
        build_signal_digest signals = Raise TypeError
        ∧ analyze w' signals = Raise TypeError.
Proof.
  intros Hget Hne Hnone. eexists. split.
  { unfold get_sol_price_data, _get. rewrite Hget.
    assert (Htruthy : truthy (VDict data) = true).
    { simpl. by rewrite bool_decide_eq_false_2. }
    rewrite Htruthy. simpl negb. cbn iota.
    change (Py.get (VDict data) "market_data" (VDict ∅))
      with (Ok (default (VDict ∅) (data !! "market_data")) : result value).
    rewrite Hnone. simpl default. cbn [mbind result_bind].
    vm_compute. reflexivity. }
  split; [exact eq_refl|]. split; [exact eq_refl|].
  intros w' signals market Hmarket Hsol Hrest.
  assert (Hdigest : build_signal_digest signals = Raise TypeError).
  { unfold build_signal_digest, digest_parts in *.
    rewrite (digest_raises_on_null_price signals market _ Hmarket Hsol eq_refl).
    - reflexivity.
    - destruct (digest_sections (delete "market" signals)); [done | discriminate Hrest]. }
  split; [exact Hdigest|]. unfold analyze. by rewrite Hdigest.
Qed.

Lemma null_price_breaks_digest_witness :
  ∃ record,
    get_sol_price_data (Cases.world_market Cases.sol_response_bare) = Ok (VDict record)
    ∧ record !! "price_usd" = Some VNone
    ∧ build_signal_digest {[ "market" := VDict {[ "sol" := VDict record ]} ]}
      = Raise TypeError.
Proof.
  destruct (null_price_breaks_digest (Cases.world_market Cases.sol_response_bare)
              {[ "id" := VStr "solana" ]})
    as (record & Hrecord & Hprice & _ & Hdigest).
  - vm_compute. reflexivity.
  - intros Hempty. apply (f_equal (λ d : dict, d !! "id")) in Hempty.
    vm_compute in Hempty. discriminate Hempty.
  - vm_compute. reflexivity.
  - exists record. split; [exact Hrecord|]. split; [exact Hprice|].
    apply (Hdigest Sample.world_no_key
             {[ "market" := VDict {[ "sol" := VDict record ]} ]}
             {[ "sol" := VDict record ]}).
    + apply lookup_insert_eq.
    + apply lookup_insert_eq.
    + vm_compute. reflexivity.
Defined.

(** X15: the digest does not look at the [error] key of a record.  When
    no request gets an answer, the TVL and SOL records that the fetchers
    return are rendered like zero readings: the digest opens with a TVL
    of $0 and changes of +0.0%, and its SOL line reads $0.00. *)
Theorem failed_fetch_reads_as_zero `{Runtime} (w : World)
    (signals onchain market : dict) (tvl sol : value) (parts : list string) :
  (∀ url data, http_get w url = Ok data → truthy data = false) →
  get_solana_tvl_history w = Ok tvl →
  get_sol_price_data w = Ok sol →
  signals !! "onchain" = Some (VDict onchain) →
  onchain !! "tvl" = Some tvl →
  signals !! "market" = Some (VDict market) →
  market !! "sol" = Some sol →
  digest_parts signals = Ok parts →
  take 4 parts = ["## ONCHAIN SIGNALS"; "Solana TVL: $0";
                  "  14d change: +0.0%"; "  30d change: +0.0%"]
  ∧ "SOL: $0.00" ∈ parts
  ∧ "  24h: +0.0%, 7d: +0.0%, 14d: +0.0%, 30d: +0.0%" ∈ parts.
Proof.
  intros Hfail Htvl Hsol Honchain Htvl_in Hmarket Hsol_in Hparts.
  assert (Hget : ∀ url, truthy (_get w url) = false).
  { intros url. unfold _get. destruct (http_get w url) as [data|e] eqn:Hurl; [|done].
    by apply (Hfail url). }
  unfold get_solana_tvl_history in Htvl. rewrite Hget in Htvl.
  simpl negb in Htvl. cbn iota in Htvl. injection Htvl as <-.
  unfold get_sol_price_data in Hsol. rewrite Hget in Hsol.
  simpl negb in Hsol. cbn iota in Hsol. injection Hsol as <-.
  apply digest_parts_Ok in Hparts as (s & Hs & ->).
  unfold digest_sections in Hs. cbv zeta in Hs. unfold category_of in Hs.
  rewrite Honchain, Hmarket in Hs. simpl default in Hs.
  change (Py.get (VDict onchain) "tvl" (VDict ∅))
    with (Ok (default (VDict ∅) (onchain !! "tvl")) : result value) in Hs.
  rewrite Htvl_in in Hs. simpl default in Hs. cbn [mbind result_bind] in Hs.
  change (Py.get (VDict market) "sol" (VDict ∅))
    with (Ok (default (VDict ∅) (market !! "sol")) : result value) in Hs.
  rewrite Hsol_in in Hs. simpl default in Hs.
  bind_inv Hs as current Hcurrent. bind_inv Hs as ch14 Hch14.
  bind_inv Hs as ch30 Hch30.
  bind_inv Hs as protocols Hprotocols. bind_inv Hs as yields Hyields.
  bind_inv Hs as net Hnet. bind_inv Hs as has_tps Hhas. bind_inv Hs as tps Htps.
  bind_inv Hs as trending_new Hnew. bind_inv Hs as most_active Hactive.
  bind_inv Hs as topics Htopics.
  cbn [mbind result_bind] in Hs.
  bind_inv Hs as price Hprice.
  bind_inv Hs as s24 Hs24. bind_inv Hs as s7 Hs7. bind_inv Hs as s14 Hs14.
  bind_inv Hs as s30 Hs30.
  bind_inv Hs as tokens Htokens. bind_inv Hs as trending Htrending.
  bind_inv Hs as categories Hcategories. bind_inv Hs as articles Harticles.
  bind_inv Hs as news Hnews. bind_inv Hs as governance Hgovernance.
  injection Hs as <-.
  vm_compute in Hcurrent, Hch14, Hch30, Hprice, Hs24, Hs7, Hs14, Hs30.
  injection Hcurrent as <-. injection Hch14 as <-. injection Hch30 as <-.
  injection Hprice as <-. injection Hs24 as <-. injection Hs7 as <-.
  injection Hs14 as <-. injection Hs30 as <-.
  unfold render. cbn [s_tvl s_sol]. split; [reflexivity|].
  split.
  - repeat first
      [ apply elem_of_cons; left; reflexivity
      | apply elem_of_app; left; apply elem_of_cons; left; reflexivity
      | apply elem_of_app; right
      | apply elem_of_cons; right ].
  - repeat first
      [ apply elem_of_cons; left; reflexivity
      | apply elem_of_app; left; apply elem_of_cons; right;
        apply elem_of_cons; left; reflexivity
      | apply elem_of_app; right
      | apply elem_of_cons; right ].
Qed.

Lemma failed_fetch_reads_as_zero_witness :
  ∃ tvl sol parts,
    get_solana_tvl_history Cases.world_unreachable = Ok tvl
    ∧ get_sol_price_data Cases.world_unreachable = Ok sol
    ∧ digest_parts {[ "onchain" := VDict {[ "tvl" := tvl ]};
                      "market" := VDict {[ "sol" := sol ]} ]} = Ok parts
    ∧ parts !! 1%nat = Some "Solana TVL: $0"
    ∧ "SOL: $0.00" ∈ parts.
Proof.
  pose (tvl := VDict {[ "error" := VStr "Failed to fetch TVL" ]}).
  pose (sol := VDict {[ "error" := VStr "Failed to fetch SOL data" ]}).
  pose (signals := ({[ "onchain" := VDict {[ "tvl" := tvl ]};
                       "market" := VDict {[ "sol" := sol ]} ]} : dict)).
  assert (Htvl : get_solana_tvl_history Cases.world_unreachable = Ok tvl)
    by (vm_compute; reflexivity).
  assert (Hsol : get_sol_price_data Cases.world_unreachable = Ok sol)
    by (vm_compute; reflexivity).
  destruct (digest_parts signals) as [parts|e] eqn:Hparts;
    [|vm_compute in Hparts; discriminate].
  destruct (failed_fetch_reads_as_zero Cases.world_unreachable signals
              {[ "tvl" := tvl ]} {[ "sol" := sol ]} tvl sol parts)
    as (Hhead & Hprice & _).
  - intros url data Hurl. discriminate Hurl.
  - exact Htvl.
  - exact Hsol.
  - vm_compute. reflexivity.
  - apply lookup_insert_eq.
  - vm_compute. reflexivity.
  - apply lookup_insert_eq.
  - exact Hparts.
  - exists tvl, sol, parts. split; [exact Htvl|]. split; [exact Hsol|].
    split; [exact Hparts|]. split; [|exact Hprice].
    destruct parts as [|p0 [|p1 rest]]; try discriminate Hhead.
    injection Hhead as _ -> _. reflexivity.
Defined.

(** ** [market.py]: the category filter *)

Section CategoryFacts.

Context `{Runtime}.

Variable str_lower : string → string.

Lemma for_each_Forall2 {A B} (f : A → result B) (l : list A) (ys : list B) :
  for_each f l = Ok ys → Forall2 (λ x y, f x = Ok y) l ys.
Proof.
  revert ys. induction l as [|x l IH]; intros ys Hl; simpl in Hl.
  - injection Hl as <-. constructor.
  - bind_inv Hl as y Hy. bind_inv Hl as ys' Hys. injection Hl as <-.
    constructor; [done | by apply IH].
Qed.

Lemma filter_by_Forall (keep : value → result bool) (items kept : list value) :
  filter_by keep items = Ok kept → Forall (λ c, keep c = Ok true) kept.
Proof.
  revert kept. induction items as [|c items IH]; intros kept Hk; simpl in Hk.
  - injection Hk as <-. constructor.
  - bind_inv Hk as k Hc. bind_inv Hk as kept' Hkept. injection Hk as <-.
    destruct k; [constructor; [done|] |]; by apply IH.
Qed.

Lemma filter_by_sublist (keep : value → result bool) (items kept : list value) :
  filter_by keep items = Ok kept → sublist kept items.
Proof.
  revert kept. induction items as [|c items IH]; intros kept Hk; simpl in Hk.
  - injection Hk as <-. constructor.
  - bind_inv Hk as k Hc. bind_inv Hk as kept' Hkept. injection Hk as <-.
    destruct k; [apply sublist_skip | apply sublist_cons]; by apply IH.
Qed.

(** A category that passes the filter and is then copied: the copy
    carries the name that matched. *)
Lemma relevant_entry (c entry : value) :
  is_relevant str_lower c = Ok true →
  category_entry c = Ok entry →
  ∃ name text kw,
    Py.index entry "name" = Ok name
    ∧ py_or name (VStr "") = VStr text
    ∧ kw ∈ category_keywords
    ∧ Str.contains kw (str_lower text) = true.
Proof.
  unfold is_relevant, category_entry. intros Hrel Hentry.
  destruct c as [| | | | | |d]; try discriminate Hrel.
  bind_inv Hentry as name Hname.
  unfold Py.index in Hname. destruct (d !! "name") as [x|] eqn:Hd; [|discriminate Hname].
  injection Hname as ->.
  bind_inv Hentry as market_cap Hcap. bind_inv Hentry as change Hchange.
  bind_inv Hentry as volume Hvolume. bind_inv Hentry as top_3 Htop.
  injection Hentry as <-.
  bind_inv Hrel as name0 Hname0. unfold Py.get in Hname0. rewrite Hd in Hname0.
  injection Hname0 as <-.
  bind_inv Hrel as lowered Hlowered.
  unfold lower in Hlowered.
  destruct (py_or name (VStr "")) as [| | | |text| |] eqn:Hor; try discriminate Hlowered.
  injection Hlowered as <-.
  assert (Hany : existsb (λ kw, Str.contains kw (str_lower text)) category_keywords
                 = true) by congruence.
  apply existsb_exists in Hany as (kw & Hkw & Hin).
  exists name, text, kw. split; [|split; [done|split; [|done]]].
  - unfold Py.index. by rewrite lookup_insert_eq.
  - by apply list_elem_of_In.
Qed.

End CategoryFacts.

(** X16: [get_defi_categories] returns at most fifteen entries, and
    every entry it returns carries a name whose lower-cased text
    contains one of the ten keywords. *)
Theorem categories_capped_and_relevant `{Runtime} (str_lower : string → string)
    (w : World) (out : list value) :
  get_defi_categories str_lower w = Ok (VList out) →
  (length out ≤ 15)%nat
  ∧ Forall (λ entry, ∃ name text kw,
              Py.index entry "name" = Ok name
              ∧ py_or name (VStr "") = VStr text
              ∧ kw ∈ category_keywords
              ∧ Str.contains kw (str_lower text) = true) out.
Proof.
  unfold get_defi_categories. intros Hrun.
  destruct (negb (truthy (_get w (COINGECKO_BASE +:+ "/coins/categories")))).
  { injection Hrun as <-. split; [simpl; lia | constructor]. }
  bind_inv Hrun as items Hitems. bind_inv Hrun as relevant Hrelevant.
  bind_inv Hrun as entries Hentries. injection Hrun as <-.
  split.
  { rewrite (for_each_length _ _ _ Hentries), length_take. lia. }
  apply filter_by_Forall in Hrelevant.
  apply (Forall_take _ 15%nat) in Hrelevant.
  apply for_each_Forall2 in Hentries.
  induction Hentries as [|c entry cs es Hentry _ IH]; [constructor|].
  apply Forall_cons in Hrelevant as [Hc Hcs].
  constructor; [by apply (relevant_entry str_lower c) | by apply IH].
Qed.

Lemma categories_capped_and_relevant_witness :
  ∃ out,
    get_defi_categories Cases.lower_ascii (Cases.world_market Cases.sol_response)
    = Ok (VList out)
    ∧ length out = 15%nat
    ∧ Forall (λ entry, ∃ name text kw,
                Py.index entry "name" = Ok name
                ∧ py_or name (VStr "") = VStr text
                ∧ kw ∈ category_keywords
                ∧ Str.contains kw (Cases.lower_ascii text) = true) out.
Proof.
  assert (Hrun : ∃ out,
            get_defi_categories Cases.lower_ascii (Cases.world_market Cases.sol_response)
            = Ok (VList out) ∧ length out = 15%nat)
    by (vm_compute; eexists; split; reflexivity).
  destruct Hrun as (out & Hrun & Hlength).
  exists out. split; [exact Hrun|]. split; [exact Hlength|].
  exact (proj2 (categories_capped_and_relevant Cases.lower_ascii
                  (Cases.world_market Cases.sol_response) out Hrun)).
Defined.

(** ** [market.py]: the token entries *)

Section TokenFacts.

Context `{Runtime}.

Lemma round_is_number (p : nat) (x v : value) :
  Num.round p x = Ok v → (∃ z, v = VInt z) ∨ (∃ f, v = VFloat f).
Proof.
  unfold Num.round. intros Hround. bind_inv Hround as n Hn.
  destruct n; injection Hround as <-; [left | right]; by eexists.
Qed.

Lemma rounded_or_zero_is_number (t : value) (k : string) (v : value) :
  rounded_or_zero t k = Ok v → (∃ z, v = VInt z) ∨ (∃ f, v = VFloat f).
Proof.
  unfold rounded_or_zero. intros Hround. bind_inv Hround as x Hx.
  by apply round_is_number in Hround.
Qed.

Lemma token_entry_shape (t entry : value) :
  token_entry t = Ok entry →
  ∃ sym,
    Py.index t "symbol" = Ok (VStr sym)
    ∧ Py.index entry "symbol" = Ok (VStr (str_upper sym))
    ∧ Py.index entry "price" = Py.get t "current_price" VNone
    ∧ ∀ k, k ∈ ["change_24h"; "change_7d"; "change_14d"; "change_30d"] →
           ∃ v, Py.index entry k = Ok v
                ∧ ((∃ z, v = VInt z) ∨ (∃ f, v = VFloat f)).
Proof.
  unfold token_entry. intros Hentry.
  bind_inv Hentry as id Hid. bind_inv Hentry as symbol Hsymbol.
  bind_inv Hentry as name Hname. bind_inv Hentry as price Hprice.
  bind_inv Hentry as market_cap Hcap. bind_inv Hentry as rank Hrank.
  bind_inv Hentry as volume Hvolume.
  bind_inv Hentry as change_24h H24. bind_inv Hentry as change_7d H7.
  bind_inv Hentry as change_14d H14. bind_inv Hentry as change_30d H30.
  injection Hentry as <-.
  bind_inv Hsymbol as raw Hraw. unfold upper in Hsymbol.
  destruct raw as [| | | |sym| |]; try discriminate Hsymbol.
  injection Hsymbol as <-.
  apply rounded_or_zero_is_number in H24, H7, H14, H30.
  exists sym. split; [exact Hraw|]. split; [by unfold Py.index; simplify_map_eq|].
  split; [rewrite Hprice; by unfold Py.index; simplify_map_eq|].
  intros k Hk. repeat (apply elem_of_cons in Hk as [->|Hk]);
    [exists change_24h | exists change_7d | exists change_14d | exists change_30d
    | by apply elem_of_nil in Hk];
    (split; [by unfold Py.index; simplify_map_eq | assumption]).
Qed.

End TokenFacts.

(** X17: [get_solana_ecosystem_tokens] answers a list of tokens with one
    entry per token, in the order received.  An entry has the symbol in
    upper case and the price as received, [None] included, while each
    of its four change fields is an int or a float. *)
Theorem token_entries_shape `{Runtime} (w : World) (data out : list value) :
  http_get w (COINGECKO_BASE +:+ "/coins/markets") = Ok (VList data) →
  get_solana_ecosystem_tokens w = Ok (VList out) →
  Forall2 (λ t entry,
             ∃ sym,
               Py.index t "symbol" = Ok (VStr sym)
               ∧ Py.index entry "symbol" = Ok (VStr (str_upper sym))
               ∧ Py.index entry "price" = Py.get t "current_price" VNone
               ∧ ∀ k, k ∈ ["change_24h"; "change_7d"; "change_14d"; "change_30d"] →
                      ∃ v, Py.index entry k = Ok v
                           ∧ ((∃ z, v = VInt z) ∨ (∃ f, v = VFloat f)))
          data out.
Proof.
  intros Hget Hrun. unfold get_solana_ecosystem_tokens, _get in Hrun.
  rewrite Hget in Hrun. destruct data as [|t data].
  { injection Hrun as <-. constructor. }
  simpl truthy in Hrun. simpl negb in Hrun. cbn iota in Hrun.
  bind_inv Hrun as entries Hentries. injection Hrun as <-.
  simpl in Hentries. bind_inv Hentries as entry Hentry.
  bind_inv Hentries as rest Hrest. injection Hentries as <-.
  constructor; [by apply token_entry_shape|].
  apply for_each_Forall2 in Hrest.
  eapply Forall2_impl; [exact Hrest|]. intros t' entry'. apply token_entry_shape.
Qed.

Lemma token_entries_shape_witness :
  ∃ out,
    get_solana_ecosystem_tokens (Cases.world_market Cases.sol_response) = Ok (VList out)
    ∧ Forall2 (λ t entry,
                 ∃ sym,
                   Py.index t "symbol" = Ok (VStr sym)
                   ∧ Py.index entry "symbol" = Ok (VStr (str_upper sym))
                   ∧ Py.index entry "price" = Py.get t "current_price" VNone
                   ∧ ∀ k, k ∈ ["change_24h"; "change_7d"; "change_14d"; "change_30d"] →
                          ∃ v, Py.index entry k = Ok v
                               ∧ ((∃ z, v = VInt z) ∨ (∃ f, v = VFloat f)))
              [VDict {[ "id" := VStr "bonk"; "symbol" := VStr "bonk";
                        "name" := VStr "Bonk" ]}]
              out.
Proof.
  assert (Hrun : ∃ out,
            get_solana_ecosystem_tokens (Cases.world_market Cases.sol_response)
            = Ok (VList out))
    by (vm_compute; eexists; reflexivity).
  destruct Hrun as (out & Hrun). exists out. split; [exact Hrun|].
  apply (token_entries_shape (Cases.world_market Cases.sol_response)); [|exact Hrun].
  vm_compute. reflexivity.
Defined.

(** ** [main.py]: the three modes *)

Section ModeFacts.

Context `{Runtime}.

Lemma get_of_index (v : value) (k : string) (dflt x : value) :
  Py.index v k = Ok x → Py.get v k dflt = Ok x.
Proof.
  destruct v as [| | | | | |d]; try discriminate. simpl.
  destruct (d !! k); [|discriminate]. by intros [= ->].
Qed.

(** Every report that [analyze] returns has a [narratives] entry with a
    length. *)
Lemma analyze_narratives_sized (w : World) (signals : dict) (report : value) :
  analyze w signals = Ok report →
  ∃ n, Py.get report "narratives" (VList []) ≫= Py.len = Ok n.
Proof.
  unfold analyze. intros Ha.
  bind_inv Ha as d Hd. bind_inv Ha as result Hresult. bind_inv Ha as accepted Hacc.
  destruct accepted.
  - bind_inv Ha as meta Hmeta. bind_inv Ha as meta' Hmeta'.
    bind_inv Ha as result' Hresult'. bind_inv Ha as n Hn. injection Ha as <-.
    bind_inv Hn as x Hx. exists n.
    by rewrite (get_of_index _ _ _ _ Hx).
  - injection Ha as <-. exists 0%nat. reflexivity.
Qed.

Lemma run_analysis_Ok (w : World) (signals : dict) (report : value) :
  run_analysis w signals = Ok report → analyze w signals = Ok report.
Proof.
  unfold run_analysis. intros Hr. bind_inv Hr as r Hanalyze. bind_inv Hr as u Hu.
  by injection Hr as <-.
Qed.

End ModeFacts.

(** X18: a full run is a collecting run followed by an analysing run.
    In one and the same world, [main] without a mode returns with the
    files [fs'] exactly when [--collect-only] returns with some files
    and [--analyze-only], started on those, returns with [fs']. *)
Theorem full_run_is_collect_then_analyze `{Runtime} (w : World) (a : Adapters)
    (prog : string) (fs fs' : gmap string value) :
  main w a [prog] fs = Ok (Returned, fs')
  ↔ ∃ fs1, main w a [prog; "--collect-only"] fs = Ok (Returned, fs1)
           ∧ main w a [prog; "--analyze-only"] fs1 = Ok (Returned, fs').
Proof.
  unfold main.
  change (default "--full" ([prog] !! 1%nat)) with "--full".
  change (default "--full" ([prog; "--collect-only"] !! 1%nat)) with "--collect-only".
  change (default "--full" ([prog; "--analyze-only"] !! 1%nat)) with "--analyze-only".
  change ("--full" =? "--collect-only")%string with false.
  change ("--full" =? "--analyze-only")%string with false.
  change ("--collect-only" =? "--collect-only")%string with true.
  change ("--analyze-only" =? "--collect-only")%string with false.
  change ("--analyze-only" =? "--analyze-only")%string with true.
  cbn iota. split.
  - intros Hfull. bind_inv Hfull as signals Hsignals.
    bind_inv Hfull as analysis Hanalysis. bind_inv Hfull as site Hsite.
    bind_inv Hfull as n Hn. injection Hfull as <-.
    exists (<["signals.json" := VDict signals]> fs). rewrite Hsignals.
    split; [reflexivity|]. rewrite lookup_insert_eq.
    cbn [loaded_signals mbind result_bind]. rewrite Hanalysis.
    cbn [mbind result_bind]. rewrite Hsite. reflexivity.
  - intros (fs1 & Hcollect & Hanalyze).
    bind_inv Hcollect as signals Hsignals. injection Hcollect as <-.
    rewrite lookup_insert_eq in Hanalyze.
    cbn [loaded_signals mbind result_bind] in Hanalyze.
    bind_inv Hanalyze as analysis Hanalysis. bind_inv Hanalyze as site Hsite.
    injection Hanalyze as <-.
    rewrite Hsignals. cbn [mbind result_bind]. rewrite Hanalysis.
    cbn [mbind result_bind]. rewrite Hsite. cbn [mbind result_bind].
    destruct (analyze_narratives_sized w signals analysis
                (run_analysis_Ok w signals analysis Hanalysis)) as [n Hn].
    rewrite Hn. reflexivity.
Qed.

Lemma full_run_is_collect_then_analyze_witness :
  ∃ fs', main Sample.world_no_key Sample.adapters ["main.py"] ∅ = Ok (Returned, fs').
Proof.
  assert (Hsplit : ∃ fs' fs1,
            main Sample.world_no_key Sample.adapters ["main.py"; "--collect-only"] ∅
            = Ok (Returned, fs1)
            ∧ main Sample.world_no_key Sample.adapters ["main.py"; "--analyze-only"] fs1
              = Ok (Returned, fs')).
  { do 2 eexists. split; [vm_compute; reflexivity|]. vm_compute. reflexivity. }
  destruct Hsplit as (fs' & Hsplit). exists fs'.
  exact (proj2 (full_run_is_collect_then_analyze Sample.world_no_key Sample.adapters
                  "main.py" ∅ fs') Hsplit).
Defined.

(** ** A run without a credential *)

Section ShapedRun.

Context `{Runtime}.

Lemma get_list (cap : nat) (kind : value → bool) (d : dict) (k : string) :
  Shape.optional (Shape.list_of cap kind) d k = true →
  ∃ l, default (VList []) (d !! k) = VList l.
Proof.
  unfold Shape.optional. destruct (d !! k) as [v|]; simpl.
  - destruct v; try discriminate. intros _. by eexists.
  - intros _. by exists [].
Qed.

Ltac split_record Hr :=
  rewrite !record_cons in Hr;
  repeat match type of Hr with
         | _ && _ = true => let Hf := fresh "Hf" in apply andb_prop in Hr as [Hf Hr]
         end.

(** The highlights can be taken from every bundle that the digest can
    render. *)
Lemma highlights_total (signals : dict) :
  Shape.bundle signals = true → ∃ hl, highlights signals = Ok hl.
Proof.
  unfold Shape.bundle. intros Hb.
  apply andb_prop in Hb as [Hb Hsocial]. apply andb_prop in Hb as [Hb Hmarket].
  apply andb_prop in Hb as [Honchain Hgithub].
  destruct (get_record _ signals "onchain" Honchain) as (onchain & Hon & Sonchain).
  destruct (get_record _ signals "github" Hgithub) as (github & Hgh & Sgithub).
  destruct (get_record _ signals "market" Hmarket) as (market & Hmk & Smarket).
  destruct (get_record _ signals "social" Hsocial) as (social & Hso & Ssocial).
  unfold highlights, recent_news, category_of. rewrite Hon, Hgh, Hmk, Hso.
  clear Honchain Hgithub Hmarket Hsocial Hon Hgh Hmk Hso.
  unfold Shape.onchain in Sonchain. split_record Sonchain.
  unfold Shape.github in Sgithub. split_record Sgithub.
  unfold Shape.social in Ssocial. split_record Ssocial.
  repeat match goal with
         | Hf : Shape.optional (Shape.list_of ?cap ?kind) ?d ?k = true |- _ =>
             let l := fresh "l" in
             let Hl := fresh "Hl" in
             destruct (get_list cap kind d k Hf) as [l Hl]; clear Hf
         end.
  rewrite !get_dict.
  repeat match goal with
         | Hl : default (VList []) (?d !! ?k) = VList _ |- _ =>
             rewrite ?Hl; clear Hl
         end.
  rewrite !bind_Ok_l. cbn [Py.slice_to]. rewrite !bind_Ok_l.
  cbn [concat_values]. rewrite !bind_Ok_l. by eexists.
Qed.

Lemma shaped_bundle (w : World) (onchain github market social : value) :
  Shape.onchain onchain = true → Shape.github github = true →
  Shape.market market = true → Shape.social social = true →
  Shape.bundle (<["collected_at" := VStr (now_iso w)]>
                  (<["social" := social]>
                     (<["market" := market]>
                        (<["github" := github]>
                           (<["onchain" := onchain]> ∅))))) = true.
Proof.
  intros Hon Hgh Hmk Hso. unfold Shape.bundle, Shape.optional.
  rewrite !(lookup_insert_ne _ _ "onchain") by done.
  rewrite (lookup_insert_eq _ "onchain").
  rewrite !(lookup_insert_ne _ _ "github") by done.
  rewrite (lookup_insert_eq _ "github").
  rewrite !(lookup_insert_ne _ _ "market") by done.
  rewrite (lookup_insert_eq _ "market").
  rewrite !(lookup_insert_ne _ _ "social") by done.
  rewrite (lookup_insert_eq _ "social").
  by rewrite Hon, Hgh, Hmk, Hso.
Qed.

End ShapedRun.

(** X19: a full run that cannot fail before it ends.  When the four
    adapters return records of the shapes that the digest reads, no
    credential is set and every write succeeds, [main] without a mode
    returns normally: it leaves the bundle in [signals.json], the
    fallback report with the digest of that bundle in [analysis.json],
    and a site document that embeds this report in [data.json]. *)
Theorem shaped_run_returns `{Runtime} (w : World) (a : Adapters) (prog : string)
    (fs : gmap string value) (onchain github market social : value) :
  onchain_collect a = Ok onchain → github_collect a = Ok github →
  market_collect a = Ok market → social_collect a = Ok social →
  Shape.onchain onchain = true → Shape.github github = true →
  Shape.market market = true → Shape.social social = true →
  credential_missing w = true →
  (∀ name doc, persist w name doc = Ok ()) →
  ∃ signals digest site,
    collect_all w a = Ok signals
    ∧ build_signal_digest signals = Ok digest
    ∧ Py.index site "analysis" = Ok (raw_report w digest (count_signals signals))
    ∧ main w a [prog] fs
      = Ok (Returned,
            <["data.json" := site]>
              (<["analysis.json" := raw_report w digest (count_signals signals)]>
                 (<["signals.json" := VDict signals]> fs))).
Proof.
  intros Hon Hgh Hmk Hso Son Sgh Smk Sso Hmissing Hpersist.
  pose proof (shaped_bundle w onchain github market social Son Sgh Smk Sso) as Hshape.
  set (signals := <["collected_at" := VStr (now_iso w)]> _) in Hshape.
  assert (Hcollect : collect_all w a = Ok signals).
  { unfold collect_all. rewrite Hon, Hgh, Hmk, Hso. cbn [mbind result_bind].
    fold signals. by rewrite Hpersist. }
  destruct (digest_sections_total signals Hshape) as [s Hs].
  assert (Hdigest : build_signal_digest signals = Ok (Str.join newline (render s))).
  { unfold build_signal_digest, digest_parts. by rewrite Hs. }
  assert (Hanalyze : analyze w signals
                     = Ok (raw_report w (Str.join newline (render s))
                             (count_signals signals))).
  { apply (analyze_falls_back w signals _ ∅ Hdigest).
    - by apply analyze_with_claude_missing.
    - apply lookup_empty. }
  destruct (highlights_total signals Hshape) as [hl Hhl].
  exists signals, (Str.join newline (render s)).
  eexists. split; [exact Hcollect|]. split; [exact Hdigest|].
  split; [|unfold main].
  2: { change (default "--full" ([prog] !! 1%nat)) with "--full".
       change ("--full" =? "--collect-only")%string with false.
       change ("--full" =? "--analyze-only")%string with false.
       cbn iota. rewrite Hcollect. cbn [mbind result_bind].
       unfold run_analysis. rewrite Hanalyze. cbn [mbind result_bind].
       rewrite Hpersist. cbn [mbind result_bind].
       unfold generate_site. rewrite Hhl. cbn [mbind result_bind].
       rewrite Hpersist. cbn [mbind result_bind].
       reflexivity. }
  unfold Py.index. rewrite lookup_insert_ne by done. by rewrite lookup_insert_eq.
Qed.

Lemma shaped_run_returns_witness :
  ∃ signals digest site,
    collect_all Sample.world_no_key Sample.adapters = Ok signals
    ∧ build_signal_digest signals = Ok digest
    ∧ main Sample.world_no_key Sample.adapters ["main.py"] ∅
      = Ok (Returned,
            <["data.json" := site]>
              (<["analysis.json" :=
                   raw_report Sample.world_no_key digest (count_signals signals)]>
                 (<["signals.json" := VDict signals]> ∅))).
Proof.
  destruct (shaped_run_returns Sample.world_no_key Sample.adapters "main.py" ∅
              (VDict {[ "top_protocols" := VList [] ]})
              (VDict {[ "trending_new" := VList [] ]})
              (VDict {[ "trending" := VList [] ]})
              (VDict {[ "governance" := VList [] ]})
              eq_refl eq_refl eq_refl eq_refl)
    as (signals & digest & site & Hcollect & Hdigest & _ & Hmain).
  - vm_compute. reflexivity.
  - vm_compute. reflexivity.
  - vm_compute. reflexivity.
  - vm_compute. reflexivity.
  - reflexivity.
  - intros name doc. reflexivity.
  - exists signals, digest, site.
    split; [exact Hcollect|]. split; [exact Hdigest | exact Hmain].
Defined.

(** X20: [--analyze-only] works from the signals file alone.  A run in
    this mode that comes to an end has not called a collector (any
    other adapters give the same run) and has left [signals.json] as it
    was; it ends with exit code 1 exactly when that file is missing,
    and then no file has changed. *)
Theorem analyze_only_reads_the_file `{Runtime} (w : World) (a : Adapters)
    (prog : string) (fs fs' : gmap string value) (o : outcome) :
  main w a [prog; "--analyze-only"] fs = Ok (o, fs') →
  (∀ a', main w a' [prog; "--analyze-only"] fs = Ok (o, fs'))
  ∧ fs' !! "signals.json" = fs !! "signals.json"
  ∧ (o = Exited 1 ↔ fs !! "signals.json" = None)
  ∧ (o = Exited 1 → fs' = fs).
Proof.
  unfold main.
  change (default "--full" ([prog; "--analyze-only"] !! 1%nat)) with "--analyze-only".
  change ("--analyze-only" =? "--collect-only")%string with false.
  change ("--analyze-only" =? "--analyze-only")%string with true.
  cbn iota. intros Hrun. split; [intros _; exact Hrun|].
  destruct (fs !! "signals.json") as [doc|] eqn:Hfile.
  - bind_inv Hrun as signals Hsignals. bind_inv Hrun as analysis Hanalysis.
    bind_inv Hrun as site Hsite. injection Hrun as <- <-.
    split; [by rewrite !lookup_insert_ne by done|].
    split; [split; discriminate | discriminate].
  - injection Hrun as <- <-. by repeat split.
Qed.

Lemma analyze_only_reads_the_file_witness :
  main Cases.world_unreachable Sample.adapters ["main.py"; "--analyze-only"] ∅
  = Ok (Exited 1, ∅)
  ∧ (Exited 1 = Exited 1 ↔ (∅ : gmap string value) !! "signals.json" = None).
Proof.
  assert (Hrun : main Cases.world_unreachable Sample.adapters
                   ["main.py"; "--analyze-only"] ∅ = Ok (Exited 1, ∅))
    by (vm_compute; reflexivity).
  split; [exact Hrun|].
  exact (proj1 (proj2 (proj2 (analyze_only_reads_the_file Cases.world_unreachable
                                Sample.adapters "main.py" ∅ ∅ (Exited 1) Hrun)))).
Defined.
